(** * Session and conversation state of the web chat client

    A shallow embedding of the stateful handlers of
    [src/components/ChatApp.tsx], [src/components/chat/ChatInterface.tsx]
    and [src/components/auth/OTPForm.tsx].

    - JavaScript strings are sequences of UTF-16 code units ([list N]).
    - A [Date] is its time value, the milliseconds since the epoch ([Z]).
    - React state variables are the fields of a record; an event handler is
      a transition on that record.  What the handler receives from the
      outside (clock reads, the settled value of an awaited promise) is an
      explicit argument.
    - [undefined]/[null] are [None]. *)

From Stdlib Require Import List NArith ZArith Bool Lia String Ascii DecimalString.
From Stdlib Require DecimalPos DecimalZ.
Import ListNotations.

Set Implicit Arguments.

(* ===================================================================== *)
(** ** JavaScript strings *)
(* ===================================================================== *)

Module JS.

Definition code_unit := N.
Definition jsstring := list code_unit.
Definition Date := Z.

(** A literal of the source text (the literals used are all ASCII). *)
Definition lit (s : string) : jsstring :=
  map N_of_ascii (list_ascii_of_string s).

(** [a === b] on strings. *)
Fixpoint eqb (a b : jsstring) : bool :=
  match a, b with
  | [], [] => true
  | x :: a', y :: b' => N.eqb x y && eqb a' b'
  | _, _ => false
  end.

(** [s.length] *)
Definition length (s : jsstring) : nat := List.length s.

(** ToBoolean on a string: only the empty string is falsy. *)
Definition truthy (s : jsstring) : bool :=
  match s with [] => false | _ :: _ => true end.

(** [a || b] where [a] is a possibly undefined string and [b] a string. *)
Definition or_else (a : option jsstring) (b : jsstring) : jsstring :=
  match a with
  | Some s => if truthy s then s else b
  | None => b
  end.

(** WhiteSpace and LineTerminator code units, the ones [trim] strips. *)
Definition isWhiteSpace (c : code_unit) : bool :=
  ((9 <=? c) && (c <=? 13)            (* TAB LF VT FF CR *)
   || (c =? 32) || (c =? 160)         (* SP, NBSP *)
   || (c =? 5760)                     (* U+1680 *)
   || ((8192 <=? c) && (c <=? 8202))  (* U+2000 .. U+200A *)
   || (c =? 8232) || (c =? 8233)      (* LS, PS *)
   || (c =? 8239) || (c =? 8287)      (* U+202F, U+205F *)
   || (c =? 12288) || (c =? 65279))%N (* U+3000, U+FEFF *).

Fixpoint trimStart (s : jsstring) : jsstring :=
  match s with
  | [] => []
  | c :: r => if isWhiteSpace c then trimStart r else s
  end.

Definition trimEnd (s : jsstring) : jsstring := rev (trimStart (rev s)).

(** [s.trim()] *)
Definition trim (s : jsstring) : jsstring := trimEnd (trimStart s).

(** [s.startsWith(t)] *)
Fixpoint startsWith (s t : jsstring) : bool :=
  match t, s with
  | [], _ => true
  | _ :: _, [] => false
  | y :: t', x :: s' => N.eqb x y && startsWith s' t'
  end.

(** [s.includes(t)]: [t] occurs in [s] at some position. *)
Fixpoint includes (s t : jsstring) : bool :=
  startsWith s t ||
  match s with
  | [] => false
  | _ :: s' => includes s' t
  end.

(** [s.split(sep)] for a separator of one code unit; the result is never
    empty. *)
Fixpoint split (sep : code_unit) (s : jsstring) : list jsstring :=
  match s with
  | [] => [[]]
  | c :: r =>
      if N.eqb c sep then [] :: split sep r
      else match split sep r with
           | [] => [[c]]
           | p :: ps => (c :: p) :: ps
           end
  end.

(** The code unit of ['@']. *)
Definition at_sign : code_unit := 64%N.

(** [l1] is [l2] with some elements left out, the others in their order. *)
Inductive subseq {A : Type} : list A -> list A -> Prop :=
| subseq_nil : subseq [] []
| subseq_skip x l1 l2 : subseq l1 l2 -> subseq l1 (x :: l2)
| subseq_keep x l1 l2 : subseq l1 l2 -> subseq (x :: l1) (x :: l2).

(** [xs[0]] *)
Definition first {A} (xs : list A) : option A := hd_error xs.

(** [n.toString()] for an integral Number (decimal digits, a leading minus
    sign for negatives). *)
Definition number_toString (n : Z) : jsstring :=
  lit (NilZero.string_of_int (Z.to_int n)).

(** ASCII case folding: what [toLowerCase] does on ASCII text. *)
Definition lowerASCII (c : code_unit) : code_unit :=
  if ((65 <=? c) && (c <=? 90))%N then (c + 32)%N else c.

Definition toLowerCaseASCII (s : jsstring) : jsstring := map lowerASCII s.

(** [a || b] on the results of optional chains that end in a boolean. *)
Definition or_undef (a b : option bool) : option bool :=
  match a with
  | Some true => a
  | _ => b
  end.

(** ToBoolean on such a result, as [Array.prototype.filter] applies it. *)
Definition toBoolean (v : option bool) : bool :=
  match v with
  | Some true => true
  | _ => false
  end.

End JS.

Import JS.


(* ===================================================================== *)
(** ** Handlers with [try]/[catch]/[finally] *)
(* ===================================================================== *)

(** A handler body runs on a store [S] and either completes with a value or
    throws.  Unlike a transactional error monad, what was written to the
    store before a [throw] stays written, as in JavaScript. *)

Module Effect.

(** An object that is thrown, or that a response carries as its [error];
    the handlers only read its [message]. *)
Record Error := mkError { message : option jsstring }.

(** [null] and [undefined], on which no property can be read. *)
Inductive Nullish := null | undefined.

(** The value of a [catch (error: any)] binding: what was thrown, or what a
    promise was rejected with. *)
Inductive Thrown :=
| Object (e : Error)
| NotAnObject (n : Nullish).

(** The [TypeError] the engine throws for a property read on [null] or
    [undefined]; the message is the one V8 gives.  No handler reads it. *)
Definition TypeError (n : Nullish) : Error :=
  mkError
    (Some (lit "Cannot read properties of " ++
           match n with
           | null => lit "null"
           | undefined => lit "undefined"
           end ++
           lit " (reading 'message')")).

Inductive completion (A : Type) :=
| Normal (a : A)
| Throw (v : Thrown).
Arguments Normal {A} a.
Arguments Throw {A} v.

Definition M (S A : Type) := S -> S * completion A.

Definition ret {S A} (a : A) : M S A := fun s => (s, Normal a).

Definition bind {S A B} (m : M S A) (k : A -> M S B) : M S B :=
  fun s =>
    match m s with
    | (s', Normal a) => k a s'
    | (s', Throw e) => (s', Throw e)
    end.

Definition throw {S A} (v : Thrown) : M S A := fun s => (s, Throw v).

(** [try { body } catch (error) { handler(error) }] *)
Definition try_catch {S A} (body : M S A) (handler : Thrown -> M S A) : M S A :=
  fun s =>
    match body s with
    | (s', Normal a) => (s', Normal a)
    | (s', Throw e) => handler e s'
    end.

(** [try { body } finally { fin }]: [fin] runs on both exits; if it completes
    normally the completion of [body] stands. *)
Definition try_finally {S A} (body : M S A) (fin : M S unit) : M S A :=
  fun s =>
    match body s with
    | (s', c) =>
        match fin s' with
        | (s'', Normal _) => (s'', c)
        | (s'', Throw e) => (s'', Throw e)
        end
    end.

(** A state setter or another write to the store. *)
Definition modify {S} (f : S -> S) : M S unit := fun s => (f s, Normal tt).

(** The store a handler leaves behind. *)
Definition exec {S A} (m : M S A) (s : S) : S := fst (m s).

(** How an awaited promise settles: fulfilled with a value, or rejected. *)
Inductive settled (A : Type) :=
| Fulfilled (a : A)
| Rejected (v : Thrown).
Arguments Fulfilled {A} a.
Arguments Rejected {A} v.

(** [await p] *)
Definition await {S A} (p : settled A) : M S A :=
  match p with
  | Fulfilled a => ret a
  | Rejected v => throw v
  end.

(** [if (error) throw error;] on the [{ error }] of a service response. *)
Definition throw_if_error {S} (error : option Error) : M S unit :=
  match error with
  | Some e => throw (Object e)
  | None => ret tt
  end.

(** [error.message] in a [catch] block: the read gives the message of an
    object and throws a [TypeError] on [null] and [undefined]. *)
Definition read_message {S} (error : Thrown) : M S (option jsstring) :=
  match error with
  | Object e => ret (message e)
  | NotAnObject n => throw (Object (TypeError n))
  end.

Module Notations.
Declare Scope handler_scope.
Delimit Scope handler_scope with handler.
Notation "x <- m ;; k" := (bind m (fun x => k))
    (at level 61, m at next level, right associativity) : handler_scope.
Notation "m ;; k" := (bind m (fun _ => k))
    (at level 61, right associativity) : handler_scope.
End Notations.

End Effect.

(** A toast shown through [useToast]. *)
Module Toast.
Inductive Variant := default | destructive.
Record t := mk {
    title : jsstring;
    description : jsstring;
    variant : Variant
  }.
End Toast.

(** ["online" | "offline" | "away"], the status union both components
    declare. *)
Inductive Status := online | offline | away.

(* ===================================================================== *)
(** ** [components/chat/ChatInterface.tsx] *)
(* ===================================================================== *)

Module ChatInterface.

Module User.
Record t := mk {
    id : jsstring;
    name : jsstring;
    email : jsstring;
    avatar : option jsstring;
    status : Status;
    lastSeen : option Date
  }.
End User.

Inductive MessageType := text | image | file.

Module Message.
Record t := mk {
    id : jsstring;
    senderId : jsstring;
    senderName : jsstring;
    content : jsstring;
    timestamp : Date;
    type : MessageType
  }.
End Message.

Module Chat.
Record t := mk {
    id : jsstring;
    participants : list User.t;
    messages : list Message.t;
    lastMessage : option Message.t;
    isGroup : bool;
    name : option jsstring
  }.

  (** [{ ...chat, messages: ms }] *)
Definition with_messages (chat : t) (ms : list Message.t) : t :=
    mk (id chat) (participants chat) ms (lastMessage chat) (isGroup chat)
       (name chat).
End Chat.

(** The [useState] variables of the component. *)
Record State := mkState {
  selectedChat : option Chat.t;
  chats : list Chat.t;
  message : jsstring;
  searchQuery : jsstring;
  showProfile : bool;
  showStats : bool;
  sidebarOpen : bool
}.

Definition setChats (f : list Chat.t -> list Chat.t) (st : State) : State :=
  mkState (selectedChat st) (f (chats st)) (message st) (searchQuery st)
          (showProfile st) (showStats st) (sidebarOpen st).

Definition setSelectedChat (c : option Chat.t) (st : State) : State :=
  mkState c (chats st) (message st) (searchQuery st)
          (showProfile st) (showStats st) (sidebarOpen st).

Definition setMessage (m : jsstring) (st : State) : State :=
  mkState (selectedChat st) (chats st) m (searchQuery st)
          (showProfile st) (showStats st) (sidebarOpen st).

Section Component.

(** The [currentUser] prop. *)
Variable currentUser : User.t.

(** [handleSendMessage].  [dateNow] is what [Date.now()] returns and
    [newDate] the time value of [new Date()].  The body has no [await]: the
    handler runs to completion in one step.  [message] and [selectedChat]
    are the values of the render the handler belongs to, [prev] in the
    updater of [setChats] is the current list. *)
Definition handleSendMessage (dateNow newDate : Z) (st : State) : State :=
  if negb (truthy (trim (message st))) then st
  else
    match selectedChat st with
    | None => st
    | Some selected =>
        let newMessage :=
          Message.mk (number_toString dateNow)
                     (User.id currentUser)
                     (User.name currentUser)
                     (trim (message st))
                     newDate
                     text in
        (* Optimistic update *)
        let updatedChat :=
          Chat.with_messages selected (Chat.messages selected ++ [newMessage]) in
        let st1 :=
          setChats (fun prev =>
                      map (fun chat =>
                             if eqb (Chat.id chat) (Chat.id selected)
                             then updatedChat else chat) prev) st in
        let st2 := setSelectedChat (Some updatedChat) st1 in
        setMessage [] st2
    end.

(** The [newMessage] object [handleSendMessage] builds from the draft. *)
Definition sent_message (dateNow newDate : Z) (st : State) : Message.t :=
  Message.mk (number_toString dateNow) (User.id currentUser)
             (User.name currentUser) (trim (message st)) newDate text.

(** The [mockChats] of [loadChats]; [dateNow1] and [dateNow2] are the two
    reads of [Date.now()]. *)
Definition mockChats (dateNow1 dateNow2 : Z) : list Chat.t :=
  [ Chat.mk (lit "1")
      [ currentUser;
        User.mk (lit "mock-user-1") (lit "Alice Johnson")
                (lit "alice@example.com")
                (Some (lit "https://api.dicebear.com/7.x/avataaars/svg?seed=Alice"))
                online None ]
      [ Message.mk (lit "1") (lit "mock-user-1") (lit "Alice Johnson")
                   (lit "Hey there! How are you doing?")
                   (dateNow1 - 1000 * 60 * 30)%Z text;
        Message.mk (lit "2") (User.id currentUser) (User.name currentUser)
                   (lit "I'm doing great! Thanks for asking. How about you?")
                   (dateNow2 - 1000 * 60 * 25)%Z text ]
      None false None ].

(** [loadChats]; [isMobile] is the value of the [useIsMobile] hook. *)
Definition loadChats (isMobile : bool) (dateNow1 dateNow2 : Z) (st : State)
  : State :=
  let mock := mockChats dateNow1 dateNow2 in
  let st1 := setChats (fun _ => mock) st in
  match mock with
  | first_chat :: _ =>
      if negb isMobile then setSelectedChat (Some first_chat) st1 else st1
  | [] => st1
  end.

(** [getChatPartner] *)
Definition getChatPartner (chat : Chat.t) : option User.t :=
  find (fun p => negb (eqb (User.id p) (User.id currentUser)))
       (Chat.participants chat).

(** [String.prototype.toLowerCase], whose Unicode case tables are not part
    of the program. *)
Variable toLowerCase : jsstring -> jsstring.

(** The predicate passed to [chats.filter] in [filteredChats]. *)
Definition chatMatches (searchQuery : jsstring) (chat : Chat.t) : option bool :=
  let partner := getChatPartner chat in
  or_undef
    (option_map (fun p => includes (toLowerCase (User.name p))
                                   (toLowerCase searchQuery)) partner)
    (option_map (fun n => includes (toLowerCase n)
                                   (toLowerCase searchQuery)) (Chat.name chat)).

(** [filteredChats] *)
Definition filteredChats (st : State) : list Chat.t :=
  filter (fun chat => toBoolean (chatMatches (searchQuery st) chat)) (chats st).

(** Whether a conversation has a chat partner or a name, the two values the
    optional chains of [filteredChats] start from. *)
Definition has_partner_or_name (chat : Chat.t) : bool :=
  match getChatPartner chat, Chat.name chat with
  | None, None => false
  | _, _ => true
  end.

End Component.

(** The payload of a [postgres_changes] INSERT event on table [messages]:
    the inserted row. *)
Record Payload := mkPayload {
  chat_id : jsstring;
  new : Message.t
}.

(** The component together with the console it logs to. *)
Record World := mkWorld {
  component : State;
  console : list (jsstring * Payload)
}.

(** The callback registered by [setupRealtimeSubscriptions]:
    [(payload) => { console.log('New message:', payload); }].  It calls no
    state setter. *)
Definition onInsert (payload : Payload) (w : World) : World :=
  mkWorld (component w) (console w ++ [(lit "New message:", payload)]).

End ChatInterface.

(* ===================================================================== *)
(** ** [components/ChatApp.tsx] *)
(* ===================================================================== *)

(** What the handlers use of [@supabase/supabase-js]. *)
Module Supabase.

Module User.
Record t := mk {
  id : jsstring;
  email : option jsstring
}.
End User.

Module Session.
Record t := mk {
  user : User.t
}.
End Session.

(** The calls made on [supabase.auth]. *)
Inductive Request :=
| SignUp (email password emailRedirectTo full_name : jsstring)
| VerifyOtp (email token : jsstring)
| SignOut.

(** The [{ error }] of a response. *)
Definition Response := option Effect.Error.

End Supabase.

Module ChatApp.

Import Effect Effect.Notations.
Local Open Scope handler_scope.

Module UserProfile.
Record t := mk {
  id : jsstring;
  name : jsstring;
  email : jsstring;
  avatar : option jsstring;
  status : Status;
  lastSeen : option Date;
  bio : option jsstring;
  location : option jsstring;
  joinedAt : option Date
}.
End UserProfile.

Inductive AuthMode := login | register | otp | chat.

Module RegisterData.
Record t := mk {
  fullName : jsstring;
  email : jsstring;
  password : jsstring
}.
End RegisterData.

(** The [useState] variables of the component, the toasts it has raised and
    the requests it has sent to the service. *)
Record Store := mkStore {
  authMode : AuthMode;
  currentUser : option UserProfile.t;
  user : option Supabase.User.t;
  session : option Supabase.Session.t;
  pendingEmail : jsstring;
  isLoading : bool;
  toasts : list Toast.t;
  requests : list Supabase.Request
}.

Definition setAuthMode (m : AuthMode) : M Store unit :=
  modify (fun s => mkStore m (currentUser s) (user s) (session s)
                           (pendingEmail s) (isLoading s) (toasts s) (requests s)).

Definition setCurrentUser (u : option UserProfile.t) : M Store unit :=
  modify (fun s => mkStore (authMode s) u (user s) (session s)
                           (pendingEmail s) (isLoading s) (toasts s) (requests s)).

Definition setUser (u : option Supabase.User.t) : M Store unit :=
  modify (fun s => mkStore (authMode s) (currentUser s) u (session s)
                           (pendingEmail s) (isLoading s) (toasts s) (requests s)).

Definition setSession (x : option Supabase.Session.t) : M Store unit :=
  modify (fun s => mkStore (authMode s) (currentUser s) (user s) x
                           (pendingEmail s) (isLoading s) (toasts s) (requests s)).

Definition setPendingEmail (e : jsstring) : M Store unit :=
  modify (fun s => mkStore (authMode s) (currentUser s) (user s) (session s)
                           e (isLoading s) (toasts s) (requests s)).

Definition setIsLoading (b : bool) : M Store unit :=
  modify (fun s => mkStore (authMode s) (currentUser s) (user s) (session s)
                           (pendingEmail s) b (toasts s) (requests s)).

Definition toast (t : Toast.t) : M Store unit :=
  modify (fun s => mkStore (authMode s) (currentUser s) (user s) (session s)
                           (pendingEmail s) (isLoading s) (toasts s ++ [t])
                           (requests s)).

(** [await supabase.auth.<call>(...)]: the request goes out, then the
    handler resumes with how the promise settled. *)
Definition call (r : Supabase.Request) (answer : settled Supabase.Response)
  : M Store Supabase.Response :=
  modify (fun s => mkStore (authMode s) (currentUser s) (user s) (session s)
                           (pendingEmail s) (isLoading s) (toasts s)
                           (requests s ++ [r])) ;;
  await answer.

(** [user?.email] *)
Definition email_of (user : option Supabase.User.t) : option jsstring :=
  match user with
  | Some u => Supabase.User.email u
  | None => None
  end.

(** [user?.email?.split('@')[0]] *)
Definition email_local_part (user : option Supabase.User.t) : option jsstring :=
  match email_of user with
  | Some e => first (split at_sign e)
  | None => None
  end.

(** [`https://api.dicebear.com/7.x/avataaars/svg?seed=${user?.email}`]; an
    undefined value prints as [undefined] in a template literal. *)
Definition avatar_url (user : option Supabase.User.t) : jsstring :=
  lit "https://api.dicebear.com/7.x/avataaars/svg?seed=" ++
  match email_of user with
  | Some e => e
  | None => lit "undefined"
  end.

(** [fetchUserProfile].  [user] is the state variable as the closure
    captured it; [newDate] and [newDate'] are the clock reads of the two
    [new Date()] expressions.  With the database code commented out the body
    has no [await]. *)
Definition fetchUserProfile (user : option Supabase.User.t)
    (newDate newDate' : Date) (userId : jsstring) : M Store unit :=
  try_catch
    (let defaultUser :=
       UserProfile.mk userId
         (or_else (email_local_part user) (lit "User"))
         (or_else (email_of user) [])
         (Some (avatar_url user))
         online
         None
         (Some (lit "Hello! I'm using ChatApp"))
         (Some [])
         (Some newDate) in
     setCurrentUser (Some defaultUser))
    (fun error =>
       (* Fallback to default user *)
       setCurrentUser
         (Some (UserProfile.mk userId
                  (or_else (email_local_part user) (lit "User"))
                  (or_else (email_of user) [])
                  (Some (avatar_url user))
                  online
                  None
                  (Some (lit "Hello! I'm using ChatApp"))
                  (Some [])
                  (Some newDate')))).

Section Handlers.

(** [window.location.origin] *)
Variable origin : jsstring.

(** [handleRegister]; [answer] is how [supabase.auth.signUp] settles. *)
Definition handleRegister (data : RegisterData.t)
    (answer : settled Supabase.Response) : M Store unit :=
  setIsLoading true ;;
  try_finally
    (try_catch
       (let redirectUrl := origin ++ lit "/" in
        error <- call (Supabase.SignUp (RegisterData.email data)
                                       (RegisterData.password data)
                                       redirectUrl
                                       (RegisterData.fullName data)) answer ;;
        throw_if_error error ;;
        setPendingEmail (RegisterData.email data) ;;
        setAuthMode otp ;;
        toast (Toast.mk (lit "Account created!")
                        (lit "Please check your email for verification code.")
                        Toast.default))
       (fun error =>
          error_message <- read_message error ;;
          toast (Toast.mk (lit "Registration failed")
                          (or_else error_message
                                   (lit "Please try again later."))
                          Toast.destructive)))
    (setIsLoading false).

End Handlers.

(** [handleOTPVerification]; [answer] is how [supabase.auth.verifyOtp]
    settles. *)
Definition handleOTPVerification (otp : jsstring)
    (answer : settled Supabase.Response) : M Store unit :=
  setIsLoading true ;;
  try_finally
    (try_catch
       (pending <- (fun s => (s, Normal (pendingEmail s))) ;;
        error <- call (Supabase.VerifyOtp pending otp) answer ;;
        throw_if_error error ;;
        toast (Toast.mk (lit "Email verified!")
                        (lit "Welcome to ChatApp! You can now start chatting.")
                        Toast.default))
       (fun error =>
          error_message <- read_message error ;;
          toast (Toast.mk (lit "Verification failed")
                          (or_else error_message
                                   (lit "Invalid OTP. Please check your email for the verification code."))
                          Toast.destructive)))
    (setIsLoading false).

(** [handleLogout]; [answer] is how [supabase.auth.signOut] settles. *)
Definition handleLogout (answer : settled Supabase.Response) : M Store unit :=
  try_catch
    (error <- call Supabase.SignOut answer ;;
     throw_if_error error ;;
     setCurrentUser None ;;
     setUser None ;;
     setSession None ;;
     setAuthMode login ;;
     toast (Toast.mk (lit "Logged out")
                     (lit "You have been successfully logged out.")
                     Toast.default))
    (fun error =>
       error_message <- read_message error ;;
       toast (Toast.mk (lit "Logout failed")
                       (or_else error_message (lit "Please try again."))
                       Toast.destructive)).

End ChatApp.

(* ===================================================================== *)
(** ** [components/auth/OTPForm.tsx] *)
(* ===================================================================== *)

Module OTPForm.

Import Effect Effect.Notations.
Local Open Scope handler_scope.

Section Component.

(** The store of the component that renders the form. *)
Variable P : Type.

(** The [onSubmit] and [isLoading] props. *)
Variable onSubmit : jsstring -> M P unit.
Variable isLoading : option bool.

(** The [useState] variables of the form, the toasts it has raised, and the
    store of its parent. *)
Record Store := mkStore {
  otp : jsstring;
  isResending : bool;
  toasts : list Toast.t;
  parent : P
}.

Definition toast (t : Toast.t) : M Store unit :=
  modify (fun s => mkStore (otp s) (isResending s) (toasts s ++ [t]) (parent s)).

(** Running a handler of the parent from inside the form. *)
Definition in_parent {A} (m : M P A) : M Store A :=
  fun s =>
    match m (parent s) with
    | (p', c) => (mkStore (otp s) (isResending s) (toasts s) p', c)
    end.

(** [handleSubmit] *)
Definition handleSubmit : M Store unit :=
  fun s =>
    if negb (Nat.eqb (JS.length (otp s)) 6) then
      toast (Toast.mk (lit "Invalid OTP")
                      (lit "Please enter a 6-digit OTP")
                      Toast.destructive) s
    else
      try_catch
        (in_parent (onSubmit (otp s)) ;;
         toast (Toast.mk (lit "Email verified!")
                         (lit "Your account has been successfully verified.")
                         Toast.default))
        (fun error =>
           toast (Toast.mk (lit "Verification failed")
                           (lit "Invalid OTP. Please try again.")
                           Toast.destructive)) s.

(** The [disabled] attribute of the "Verify Email" button:
    [isLoading || otp.length !== 6]. *)
Definition verifyDisabled (s : Store) : bool :=
  match isLoading with
  | Some true => true
  | _ => negb (Nat.eqb (JS.length (otp s)) 6)
  end.

(** A click on the button: a disabled button fires no [onClick]. *)
Definition clickVerify : M Store unit :=
  fun s => if verifyDisabled s then ret tt s else handleSubmit s.

End Component.

Arguments mkStore {P} otp isResending toasts parent.
Arguments otp {P} s.
Arguments isResending {P} s.
Arguments toasts {P} s.
Arguments parent {P} s.

(** The form as [ChatApp] renders it in mode [otp]:
    [onSubmit={handleOTPVerification}], [isLoading={isLoading}]. *)
Definition rendered_handleSubmit (answer : settled Supabase.Response)
  : M (Store ChatApp.Store) unit :=
  handleSubmit (fun code => ChatApp.handleOTPVerification code answer).

Definition rendered_clickVerify (answer : settled Supabase.Response)
  : M (Store ChatApp.Store) unit :=
  fun s =>
    clickVerify (fun code => ChatApp.handleOTPVerification code answer)
                (Some (ChatApp.isLoading (parent s))) s.

End OTPForm.

(* ===================================================================== *)
(** ** [components/chat/ChatInterface.tsx]: what the render reads, and the
       remaining handlers *)
(* ===================================================================== *)

Module ChatInterfaceView.

Import ChatInterface.

(** The code unit of [' ']. *)
Definition space : code_unit := 32%N.

(** [a || b] where both sides may be undefined strings. *)
Definition or_opt (a b : option jsstring) : option jsstring :=
  match a with
  | Some s => if truthy s then a else b
  | None => b
  end.

(** [name.split(' ').map(n => n[0]).join('')]: [n[0]] of an empty string is
    undefined, which [join] prints as the empty string. *)
Definition initials (name : jsstring) : jsstring :=
  List.concat (map (fun n => match first n with
                        | Some c => [c]
                        | None => []
                        end) (split space name)).

(** [chat.messages[chat.messages.length - 1]] *)
Definition lastMessage (chat : Chat.t) : option Message.t :=
  match List.length (Chat.messages chat) with
  | O => None
  | S n => nth_error (Chat.messages chat) n
  end.

Definition setSearchQuery (q : jsstring) (st : State) : State :=
  mkState (selectedChat st) (chats st) (message st) q
          (showProfile st) (showStats st) (sidebarOpen st).

Definition setShowProfile (b : bool) (st : State) : State :=
  mkState (selectedChat st) (chats st) (message st) (searchQuery st)
          b (showStats st) (sidebarOpen st).

Definition setShowStats (b : bool) (st : State) : State :=
  mkState (selectedChat st) (chats st) (message st) (searchQuery st)
          (showProfile st) b (sidebarOpen st).

Definition setSidebarOpen (b : bool) (st : State) : State :=
  mkState (selectedChat st) (chats st) (message st) (searchQuery st)
          (showProfile st) (showStats st) b.

(** The [stats] prop handed to [MessageStats]. *)
Record StatsData := mkStats {
  totalMessages : nat;
  totalChats : nat;
  activeUsers : nat
}.

Section View.

Variable currentUser : User.t.
Variable toLowerCase : jsstring -> jsstring.

(** The avatar fallback of a row of the chat list:
    [partner?.name.split(' ').map(n => n[0]).join('') || 'G']. *)
Definition rowFallback (chat : Chat.t) : jsstring :=
  or_else (option_map (fun p => initials (User.name p))
                      (getChatPartner currentUser chat))
          (lit "G").

(** The title of a row: [partner?.name || chat.name || 'Unknown']. *)
Definition rowTitle (chat : Chat.t) : jsstring :=
  or_else (or_opt (option_map User.name (getChatPartner currentUser chat))
                  (Chat.name chat))
          (lit "Unknown").

(** The preview of a row: [lastMessage?.content || 'No messages yet']. *)
Definition rowPreview (chat : Chat.t) : jsstring :=
  or_else (option_map Message.content (lastMessage chat))
          (lit "No messages yet").


(** [getChatPartner(chat)?.status === 'online'] *)
Definition partnerOnline (chat : Chat.t) : bool :=
  match getChatPartner currentUser chat with
  | Some p => match User.status p with online => true | _ => false end
  | None => false
  end.

(** The [stats] object built for the statistics dialog;
    [selectedChat?.messages.length || 0] is [0] without a selection. *)
Definition stats (st : State) : StatsData :=
  mkStats
    (match selectedChat st with
     | Some c => List.length (Chat.messages c)
     | None => 0
     end)
    (List.length (chats st))
    (List.length (filter partnerOnline (chats st))).

(** [handleChatSelect]; [isMobile] is the value of the [useIsMobile] hook. *)
Definition handleChatSelect (isMobile : bool) (chat : Chat.t) (st : State)
  : State :=
  let st1 := setSelectedChat (Some chat) st in
  if isMobile then setSidebarOpen false st1 else st1.

(** A click on the [i]-th row of the chat list; the rows are
    [filteredChats.map(...)], each with
    [onClick={() => handleChatSelect(chat)}]. *)
Definition clickRow (isMobile : bool) (i : nat) (st : State) : State :=
  match nth_error (filteredChats currentUser toLowerCase st) i with
  | Some chat => handleChatSelect isMobile chat st
  | None => st
  end.

(** The [disabled] attribute of the send button: [!message.trim()]. *)
Definition sendDisabled (st : State) : bool :=
  negb (truthy (trim (message st))).

(** A click on the send button: a disabled button fires no [onClick]. *)
Definition clickSend (dateNow newDate : Z) (st : State) : State :=
  if sendDisabled st then st
  else handleSendMessage currentUser dateNow newDate st.

(** [onKeyPress={(e) => e.key === 'Enter' && handleSendMessage()}] *)
Definition onKeyPress (key : jsstring) (dateNow newDate : Z) (st : State)
  : State :=
  if JS.eqb key (lit "Enter")
  then handleSendMessage currentUser dateNow newDate st
  else st.

(** What can happen to the component: the mount effect and the user's
    actions, each with the clock reads and hook values it sees. *)
Inductive Event :=
| LoadChats (isMobile : bool) (dateNow1 dateNow2 : Z)
| TypeMessage (value : jsstring)
| TypeSearch (value : jsstring)
| ClickRow (isMobile : bool) (i : nat)
| ClickSend (dateNow newDate : Z)
| KeyPress (key : jsstring) (dateNow newDate : Z)
| ToggleSidebar (open : bool)
| ToggleProfile (open : bool)
| ToggleStats (open : bool).

Definition step (st : State) (e : Event) : State :=
  match e with
  | LoadChats isMobile d1 d2 => loadChats currentUser isMobile d1 d2 st
  | TypeMessage v => setMessage v st
  | TypeSearch v => setSearchQuery v st
  | ClickRow isMobile i => clickRow isMobile i st
  | ClickSend d n => clickSend d n st
  | KeyPress k d n => onKeyPress k d n st
  | ToggleSidebar b => setSidebarOpen b st
  | ToggleProfile b => setShowProfile b st
  | ToggleStats b => setShowStats b st
  end.

Definition run (events : list Event) (st : State) : State :=
  fold_left step events st.

(** The mount effect running while the layout is the mobile one. *)
Definition reloads_on_mobile (e : Event) : bool :=
  match e with
  | LoadChats true _ _ => true
  | _ => false
  end.

End View.

(** The state of the component before its mount effect has run. *)
Definition initial : State := mkState None [] [] [] false false false.

(** The INSERT events of the subscription arriving one after the other. *)
Definition deliver (payloads : list Payload) (w : World) : World :=
  fold_left (fun w' payload => onInsert payload w') payloads w.

(** The ids of the messages held by the conversations with the id
    [conversationId]. *)
Definition message_ids (conversationId : jsstring) (st : State)
  : list jsstring :=
  flat_map (fun c => if JS.eqb (Chat.id c) conversationId
                     then map Message.id (Chat.messages c)
                     else [])
           (chats st).

(** The focused conversation, when there is one, is in the list. *)
Definition selection_in_list (st : State) : Prop :=
  forall c, selectedChat st = Some c -> In c (chats st).

End ChatInterfaceView.

(* ===================================================================== *)
(** ** [components/ChatApp.tsx]: the mount effect and the render *)
(* ===================================================================== *)

Module ChatAppSession.

Import Effect Effect.Notations ChatApp.
Local Open Scope handler_scope.

(** The state of the first render. *)
Definition initial : Store :=
  mkStore login None None None [] false [] [].

(** The mount effect has the dependency list [[]]: it runs once, after the
    first render, and the callbacks it registers keep the
    [fetchUserProfile] of that render, in which the state variable [user]
    has its initial value. *)
Definition mount_user : option Supabase.User.t := user initial.

(** The listener given to [supabase.auth.onAuthStateChange].  The value
    is the list of user ids for which [setTimeout] schedules a
    [fetchUserProfile]. *)
Definition onAuthStateChange (session : option Supabase.Session.t)
  : M Store (list jsstring) :=
  setSession session ;;
  setUser (option_map Supabase.Session.user session) ;;
  match session with
  | Some s =>
      setAuthMode chat ;;
      ret [Supabase.User.id (Supabase.Session.user s)]
  | None =>
      setCurrentUser None ;;
      setAuthMode login ;;
      ret []
  end.

(** The timer callback [() => { fetchUserProfile(session.user.id); }]. *)
Definition timer (newDate newDate' : Date) (userId : jsstring)
  : M Store unit :=
  fetchUserProfile mount_user newDate newDate' userId.

(** The continuation of [supabase.auth.getSession()]. *)
Definition getSession_then (session : option Supabase.Session.t)
    (newDate newDate' : Date) : M Store unit :=
  setSession session ;;
  setUser (option_map Supabase.Session.user session) ;;
  match session with
  | Some s =>
      fetchUserProfile mount_user newDate newDate'
                       (Supabase.User.id (Supabase.Session.user s)) ;;
      setAuthMode chat
  | None => ret tt
  end.

(** What the [switch (authMode)] of the render returns. *)
Inductive Surface :=
| ShowLoginForm (isLoading : bool)
| ShowRegisterForm (isLoading : bool)
| ShowOTPForm (email : jsstring) (isLoading : bool)
| ShowChatInterface (currentUser : UserProfile.t)
| ShowNothing.

Definition render (st : Store) : Surface :=
  match authMode st with
  | login => ShowLoginForm (isLoading st)
  | register => ShowRegisterForm (isLoading st)
  | otp => ShowOTPForm (pendingEmail st) (isLoading st)
  | chat =>
      match currentUser st with
      | Some u => ShowChatInterface u
      | None => ShowNothing
      end
  end.

(** What can happen to the component: service events, timers, and the
    handlers the rendered forms call. *)
Inductive Event :=
| AuthStateChange (session : option Supabase.Session.t)
| GetSessionThen (session : option Supabase.Session.t) (newDate newDate' : Date)
| Timer (newDate newDate' : Date) (userId : jsstring)
| Register (origin : jsstring) (data : RegisterData.t)
           (answer : settled Supabase.Response)
| VerifyOTP (code : jsstring) (answer : settled Supabase.Response)
| Logout (answer : settled Supabase.Response)
| SwitchToRegister
| SwitchToLogin.

Definition step (st : Store) (e : Event) : Store :=
  match e with
  | AuthStateChange session => exec (onAuthStateChange session) st
  | GetSessionThen session d d' => exec (getSession_then session d d') st
  | Timer d d' userId => exec (timer d d' userId) st
  | Register origin data answer => exec (handleRegister origin data answer) st
  | VerifyOTP code answer => exec (handleOTPVerification code answer) st
  | Logout answer => exec (handleLogout answer) st
  | SwitchToRegister => exec (setAuthMode register) st
  | SwitchToLogin => exec (setAuthMode login) st
  end.

Definition run (events : list Event) (st : Store) : Store :=
  fold_left step events st.

(** [user] mirrors [session]: it is [session?.user ?? null]. *)
Definition user_mirrors_session (st : Store) : Prop :=
  user st = option_map Supabase.Session.user (session st).

(** The chat interface is only ever asked for while there is a session. *)
Definition chat_needs_session (st : Store) : Prop :=
  authMode st = chat -> session st <> None.

(** [getSession] reporting no session while the mode is already [chat]. *)
Definition late_without_session (st : Store) (e : Event) : bool :=
  match e, authMode st with
  | GetSessionThen None _ _, chat => true
  | _, _ => false
  end.

(** No event of the sequence is such a late report, each taken in the
    state it arrives in. *)
Fixpoint no_late_report (events : list Event) (st : Store) : Prop :=
  match events with
  | [] => True
  | e :: rest =>
      late_without_session st e = false /\ no_late_report rest (step st e)
  end.

End ChatAppSession.

(* ===================================================================== *)
(** ** Sample data *)
(* ===================================================================== *)

Module Sample.

Import ChatInterface.

Definition me : User.t :=
  User.mk (lit "u-1") (lit "Jane Doe") (lit "jane@x.com") None online None.

Definition alice : User.t :=
  User.mk (lit "mock-user-1") (lit "Alice Johnson") (lit "alice@example.com")
          None online None.

Definition bob : User.t :=
  User.mk (lit "mock-user-2") (lit "Bob Stone") (lit "bob@example.com")
          None away None.

(** The conversation [loadChats] creates. *)
Definition chat1 : Chat.t :=
  Chat.mk (lit "1") [me; alice]
    [ Message.mk (lit "1") (lit "mock-user-1") (lit "Alice Johnson")
                 (lit "Hey there! How are you doing?") 1000%Z text ]
    None false None.

(** A second two-party conversation. *)
Definition chat2 : Chat.t :=
  Chat.mk (lit "2") [bob; me] [] None false None.

(** A group conversation. *)
Definition group : Chat.t :=
  Chat.mk (lit "3") [me; alice; bob] [] None true (Some (lit "Team")).

(** A conversation whose only participant is the local user, without a
    name. *)
Definition solo : Chat.t :=
  Chat.mk (lit "4") [me] [] None false None.

Definition st_solo : State :=
  mkState None [chat1; solo] [] [] false false false.

Definition st0 : State :=
  mkState (Some chat1) [chat1; chat2; group] (lit "  hi ") [] false false false.

Definition app_active : ChatApp.Store :=
  ChatApp.mkStore ChatApp.chat
    (Some (ChatApp.UserProfile.mk (lit "u-1") (lit "jane") (lit "jane@x.com")
             None online None None None None))
    (Some (Supabase.User.mk (lit "u-1") (Some (lit "jane@x.com"))))
    (Some (Supabase.Session.mk
             (Supabase.User.mk (lit "u-1") (Some (lit "jane@x.com")))))
    [] false [] [].

Definition app_otp : ChatApp.Store :=
  ChatApp.mkStore ChatApp.otp None None None (lit "jane@x.com") false [] [].

Definition app_register : ChatApp.Store :=
  ChatApp.mkStore ChatApp.register None None None [] false [] [].

Definition jane_data : ChatApp.RegisterData.t :=
  ChatApp.RegisterData.mk (lit "Jane Doe") (lit "jane@x.com") (lit "secret1").

Definition jane : Supabase.User.t :=
  Supabase.User.mk (lit "u-1") (Some (lit "jane@x.com")).

Definition form_short : OTPForm.Store ChatApp.Store :=
  OTPForm.mkStore (lit "12345") false [] app_otp.

Definition form_full : OTPForm.Store ChatApp.Store :=
  OTPForm.mkStore (lit "123456") false [] app_otp.

Definition network_down : Effect.Error :=
  Effect.mkError (Some (lit "Failed to fetch")).

End Sample.

(* ===================================================================== *)
(** ** [components/auth/OTPForm.tsx]: resending the code *)
(* ===================================================================== *)

Module OTPFormResend.

Import Effect Effect.Notations.
Local Open Scope handler_scope.

Section Component.

Variable P : Type.

(** The [onResendOTP] prop. *)
Variable onResendOTP : M P unit.

Definition setIsResending (b : bool) : M (OTPForm.Store P) unit :=
  modify (fun s => OTPForm.mkStore (OTPForm.otp s) b (OTPForm.toasts s)
                                   (OTPForm.parent s)).

(** [handleResendOTP] *)
Definition handleResendOTP : M (OTPForm.Store P) unit :=
  setIsResending true ;;
  try_finally
    (try_catch
       (OTPForm.in_parent onResendOTP ;;
        OTPForm.toast
          (Toast.mk (lit "OTP resent")
                    (lit "A new OTP has been sent to your email.")
                    Toast.default))
       (fun error =>
          OTPForm.toast
            (Toast.mk (lit "Failed to resend OTP")
                      (lit "Please try again later.")
                      Toast.destructive)))
    (setIsResending false).

End Component.

End OTPFormResend.

(* ===================================================================== *)
(** ** The registration form *)
(* ===================================================================== *)

Module RegisterForm.

Import Effect Effect.Notations.
Local Open Scope handler_scope.

(** [RegisterFormData], the type inferred from [registerSchema]. *)
Module RegisterFormData.
Record t := mk {
  fullName : jsstring;
  email : jsstring;
  password : jsstring;
  confirmPassword : jsstring
}.
End RegisterFormData.

Section Component.

(** The store of the component that renders the form. *)
Variable P : Type.

(** The [onSubmit] prop. *)
Variable onSubmit : ChatApp.RegisterData.t -> M P unit.

(** The email format check of [z.string().email(...)], which belongs to the
    validation library. *)
Variable isEmail : jsstring -> bool.

(** The [useState] variables of the form, the toasts it has raised, and the
    store of its parent. *)
Record Store := mkStore {
  showPassword : bool;
  showConfirmPassword : bool;
  toasts : list Toast.t;
  parent : P
}.

Definition toast (t : Toast.t) : M Store unit :=
  modify (fun s => mkStore (showPassword s) (showConfirmPassword s)
                           (toasts s ++ [t]) (parent s)).

Definition in_parent {A} (m : M P A) : M Store A :=
  fun s =>
    match m (parent s) with
    | (p', c) => (mkStore (showPassword s) (showConfirmPassword s)
                          (toasts s) p', c)
    end.

(** [registerSchema]: whether the object passes
    [fullName.min(2)], [email.email()], [password.min(6)] and the
    refinement [data.password === data.confirmPassword]. *)
Definition registerSchema (data : RegisterFormData.t) : bool :=
  (2 <=? JS.length (RegisterFormData.fullName data))%nat
  && isEmail (RegisterFormData.email data)
  && (6 <=? JS.length (RegisterFormData.password data))%nat
  && JS.eqb (RegisterFormData.password data)
            (RegisterFormData.confirmPassword data).

(** [handleRegister]; [submitData] is [data] without [confirmPassword]. *)
Definition handleRegister (data : RegisterFormData.t) : M Store unit :=
  try_catch
    (let submitData :=
       ChatApp.RegisterData.mk (RegisterFormData.fullName data)
                               (RegisterFormData.email data)
                               (RegisterFormData.password data) in
     in_parent (onSubmit submitData) ;;
     toast (Toast.mk (lit "Account created!")
                     (lit "Please check your email for verification.")
                     Toast.default))
    (fun error =>
       toast (Toast.mk (lit "Registration failed")
                       (lit "Please try again later.")
                       Toast.destructive)).

(** [<form onSubmit={handleSubmit(handleRegister)}>] with
    [resolver: zodResolver(registerSchema)]: the form library calls the
    handler only with data the schema accepts. *)
Definition submit (data : RegisterFormData.t) : M Store unit :=
  if registerSchema data then handleRegister data else ret tt.

End Component.

Arguments mkStore {P} showPassword showConfirmPassword toasts parent.
Arguments showPassword {P} s.
Arguments showConfirmPassword {P} s.
Arguments toasts {P} s.
Arguments parent {P} s.

(** The form as [ChatApp] renders it in mode [register]:
    [onSubmit={handleRegister}]. *)
Definition rendered_submit (isEmail : jsstring -> bool) (origin : jsstring)
    (answer : settled Supabase.Response) (data : RegisterFormData.t)
  : M (Store ChatApp.Store) unit :=
  submit (fun d => ChatApp.handleRegister origin d answer) isEmail data.

End RegisterForm.

(* ===================================================================== *)
(** ** More sample data *)
(* ===================================================================== *)

Module Scenario.

Import ChatInterface.

(** A check standing in for the library's email format check. *)
Definition has_at (s : jsstring) : bool :=
  existsb (N.eqb at_sign) s.

Definition jane_form : RegisterForm.RegisterFormData.t :=
  RegisterForm.RegisterFormData.mk (lit "Jane Doe") (lit "jane@x.com")
                                   (lit "secret1") (lit "secret1").

Definition register_form : RegisterForm.Store ChatApp.Store :=
  RegisterForm.mkStore false false [] Sample.app_register.

Definition jane_session : Supabase.Session.t :=
  Supabase.Session.mk Sample.jane.

(** A list of conversations with distinct ids, the first one focused. *)
Definition st_typed : State :=
  mkState (Some Sample.chat1) [Sample.chat1; Sample.chat2; Sample.group]
          (lit "hello ") (lit "ali") false false false.

(** An inserted row for the conversation ["1"], with an id that no message
    of it has. *)
Definition fresh_payload : Payload :=
  mkPayload (lit "1")
    (Message.mk (lit "99") (lit "mock-user-1") (lit "Alice Johnson")
                (lit "Are you there?") 2000%Z text).

Definition resend_fails : Effect.M ChatApp.Store unit :=
  Effect.throw (Effect.Object Sample.network_down).

End Scenario.

(* ===================================================================== *)
(** * Properties *)
(* ===================================================================== *)

(** ** Strings *)

Example trim_ex : trim (lit "  hi there	 ") = lit "hi there".
Proof. reflexivity. Qed.

Example split_ex :
  split at_sign (lit "jane@x.com@y") = [lit "jane"; lit "x.com"; lit "y"].
Proof. reflexivity. Qed.

Example split_ex_no_sep : split at_sign (lit "jane") = [lit "jane"].
Proof. reflexivity. Qed.

Example includes_ex : includes (lit "alice johnson") (lit "ce j") = true.
Proof. reflexivity. Qed.

Example includes_ex_neg : includes (lit "alice") (lit "bob") = false.
Proof. reflexivity. Qed.

Example number_toString_ex :
  number_toString 1700000000123 = lit "1700000000123".
Proof. reflexivity. Qed.

Lemma eqb_spec (a b : jsstring) : JS.eqb a b = true <-> a = b.
Proof.
  revert b; induction a as [|x a IH]; intros [|y b]; simpl; split;
    try congruence; try reflexivity.
  - rewrite andb_true_iff, N.eqb_eq, IH. intros [-> ->]; reflexivity.
  - intros E; injection E as -> ->.
    rewrite andb_true_iff, N.eqb_eq, IH; split; reflexivity.
Qed.

Lemma eqb_refl (a : jsstring) : JS.eqb a a = true.
Proof. apply eqb_spec; reflexivity. Qed.

Lemma eqb_neq (a b : jsstring) : JS.eqb a b = false <-> a <> b.
Proof.
  rewrite <- eqb_spec. destruct (JS.eqb a b); split; congruence.
Qed.

Lemma truthy_false_iff (s : jsstring) : truthy s = false <-> s = [].
Proof. destruct s; simpl; split; congruence. Qed.

Lemma trimStart_nil_iff (s : jsstring) :
  trimStart s = [] <-> forallb isWhiteSpace s = true.
Proof.
  induction s as [|c r IH]; simpl.
  - split; reflexivity.
  - destruct (isWhiteSpace c); simpl; [exact IH | split; discriminate].
Qed.

(** What [trimStart] leaves does not start with white space. *)
Lemma trimStart_head (s : jsstring) :
  match trimStart s with
  | [] => True
  | c :: _ => isWhiteSpace c = false
  end.
Proof.
  induction s as [|c r IH]; simpl; [exact I|].
  destruct (isWhiteSpace c) eqn:E; [exact IH | exact E].
Qed.

Lemma forallb_rev {A} (f : A -> bool) (l : list A) :
  forallb f (rev l) = forallb f l.
Proof.
  induction l as [|x l IH]; simpl; [reflexivity|].
  rewrite forallb_app, IH; simpl. rewrite andb_true_r, andb_comm. reflexivity.
Qed.

(** [trim] returns the empty string exactly on input that is white space
    throughout. *)
Lemma trim_nil_iff (s : jsstring) :
  trim s = [] <-> forallb isWhiteSpace s = true.
Proof.
  unfold trim, trimEnd. split.
  - intros H.
    assert (H1 : trimStart (rev (trimStart s)) = []).
    { destruct (trimStart (rev (trimStart s))) as [|c l]; [reflexivity|].
      simpl in H. apply app_eq_nil in H. destruct H; discriminate. }
    apply trimStart_nil_iff in H1. rewrite forallb_rev in H1.
    apply trimStart_nil_iff.
    pose proof (trimStart_head s) as Hh.
    destruct (trimStart s) as [|c r]; [reflexivity|].
    simpl in H1. rewrite Hh in H1. discriminate.
  - intros H. apply trimStart_nil_iff in H. rewrite H. reflexivity.
Qed.

Lemma startsWith_spec (s t : jsstring) :
  startsWith s t = true <-> exists post, s = t ++ post.
Proof.
  revert s; induction t as [|y t IH]; intros s.
  - destruct s; simpl; split; eauto.
  - destruct s as [|x s]; simpl.
    + split; [discriminate | intros [post H]; discriminate].
    + rewrite andb_true_iff, N.eqb_eq, IH. split.
      * intros [-> [post ->]]. exists post; reflexivity.
      * intros [post H]. injection H as -> ->. eauto.
Qed.

(** [includes] decides the substring relation. *)
Lemma includes_spec (s t : jsstring) :
  includes s t = true <-> exists pre post, s = pre ++ t ++ post.
Proof.
  induction s as [|x s IH].
  - cbn [includes]. rewrite orb_false_r, startsWith_spec. split.
    + intros [post H]. exists [], post. exact H.
    + intros [pre [post H]]. destruct pre; [eauto|discriminate].
  - cbn [includes]. rewrite orb_true_iff, startsWith_spec, IH. split.
    + intros [[post H] | [pre [post H]]].
      * exists [], post. exact H.
      * exists (x :: pre), post. rewrite H. reflexivity.
    + intros [[|y pre] [post H]].
      * left. exists post. exact H.
      * right. injection H as _ H. eauto.
Qed.

Lemma includes_nil (s : jsstring) : includes s [] = true.
Proof. apply includes_spec. exists [], s. reflexivity. Qed.

(** [s.split(sep)[0]] is the part of [s] before the first [sep], all of [s]
    when [sep] does not occur. *)
Lemma split_first (sep : code_unit) (s : jsstring) :
  exists p, first (split sep s) = Some p /\ ~ In sep p /\
            (s = p \/ exists rest, s = p ++ sep :: rest).
Proof.
  induction s as [|c r IH]; simpl.
  - exists []. simpl. auto.
  - destruct (N.eqb c sep) eqn:E.
    + apply N.eqb_eq in E; subst c. exists []. simpl.
      split; [reflexivity|]. split; [tauto|]. right. exists r. reflexivity.
    + apply N.eqb_neq in E. destruct IH as [p [Hp [Hn Hs]]].
      destruct (split sep r) as [|q qs]; [discriminate|].
      simpl in Hp. injection Hp as ->.
      exists (c :: p). simpl. split; [reflexivity|]. split.
      * intros [H|H]; [congruence | contradiction].
      * destruct Hs as [->|[rest ->]]; [left; reflexivity|].
        right. exists rest. reflexivity.
Qed.

(** ** Sending a message *)

Section Send.

Import ChatInterface.

Variable currentUser : User.t.
Variables dateNow newDate : Z.

(** A send that passes the guard, spelled out. *)
Lemma handleSendMessage_sends (st : State) (selected : Chat.t) :
  selectedChat st = Some selected ->
  trim (message st) <> [] ->
  handleSendMessage currentUser dateNow newDate st =
  mkState
    (Some (Chat.with_messages selected
             (Chat.messages selected ++ [sent_message currentUser dateNow newDate st])))
    (map (fun chat =>
            if JS.eqb (Chat.id chat) (Chat.id selected)
            then Chat.with_messages selected
                   (Chat.messages selected ++ [sent_message currentUser dateNow newDate st])
            else chat) (chats st))
    [] (searchQuery st) (showProfile st) (showStats st) (sidebarOpen st).
Proof.
  intros Hsel Htrim. unfold handleSendMessage.
  destruct (truthy (trim (message st))) eqn:T.
  - simpl. rewrite Hsel. reflexivity.
  - apply truthy_false_iff in T. contradiction.
Qed.

End Send.

(** C1. Local echo: a send with content that is not all white space, while a
    conversation is focused, leaves the focused conversation with its former
    messages followed by exactly one new message, sent by the local user,
    carrying the trimmed draft and the time of [new Date()].  The same
    conversation replaces its entry in the list of conversations.  The
    handler is a single transition: nothing is awaited before the append. *)
Theorem send_local_echo :
  forall (currentUser : ChatInterface.User.t) (dateNow newDate : Z)
         (st : ChatInterface.State) (selected : ChatInterface.Chat.t),
    ChatInterface.selectedChat st = Some selected ->
    forallb isWhiteSpace (ChatInterface.message st) = false ->
    exists (newMessage : ChatInterface.Message.t) (focused : ChatInterface.Chat.t),
      let st' := ChatInterface.handleSendMessage currentUser dateNow newDate st in
      ChatInterface.selectedChat st' = Some focused /\
      ChatInterface.Chat.id focused = ChatInterface.Chat.id selected /\
      ChatInterface.Chat.messages focused =
        ChatInterface.Chat.messages selected ++ [newMessage] /\
      ChatInterface.Message.senderId newMessage = ChatInterface.User.id currentUser /\
      ChatInterface.Message.content newMessage = trim (ChatInterface.message st) /\
      ChatInterface.Message.timestamp newMessage = newDate /\
      (forall i, nth_error (ChatInterface.chats st) i = Some selected ->
                 nth_error (ChatInterface.chats st') i = Some focused).
Proof.
  intros cu dn nd st selected Hsel Hws.
  assert (Htrim : trim (ChatInterface.message st) <> []).
  { intros E. apply trim_nil_iff in E. congruence. }
  exists (ChatInterface.sent_message cu dn nd st).
  exists (ChatInterface.Chat.with_messages selected
            (ChatInterface.Chat.messages selected ++ [ChatInterface.sent_message cu dn nd st])).
  cbv zeta. rewrite (handleSendMessage_sends cu dn nd st Hsel Htrim). simpl.
  repeat split.
  intros i Hi. rewrite nth_error_map, Hi. simpl.
  rewrite eqb_refl. reflexivity.
Qed.

Lemma send_local_echo_witness :
  exists (newMessage : ChatInterface.Message.t) (focused : ChatInterface.Chat.t),
    let st' := ChatInterface.handleSendMessage Sample.me 42 43 Sample.st0 in
    ChatInterface.selectedChat st' = Some focused /\
    ChatInterface.Chat.id focused = ChatInterface.Chat.id Sample.chat1 /\
    ChatInterface.Chat.messages focused =
      ChatInterface.Chat.messages Sample.chat1 ++ [newMessage] /\
    ChatInterface.Message.senderId newMessage = ChatInterface.User.id Sample.me /\
    ChatInterface.Message.content newMessage =
      trim (ChatInterface.message Sample.st0) /\
    ChatInterface.Message.timestamp newMessage = 43%Z /\
    (forall i, nth_error (ChatInterface.chats Sample.st0) i = Some Sample.chat1 ->
               nth_error (ChatInterface.chats st') i = Some focused).
Proof.
  apply (send_local_echo Sample.me 42 43 Sample.st0 (selected := Sample.chat1));
    reflexivity.
Defined.

Example send_local_echo_run :
  option_map ChatInterface.Chat.messages
    (ChatInterface.selectedChat
       (ChatInterface.handleSendMessage Sample.me 42 43 Sample.st0)) =
  Some (ChatInterface.Chat.messages Sample.chat1 ++
        [ChatInterface.Message.mk (lit "42") (lit "u-1") (lit "Jane Doe")
                                  (lit "hi") 43%Z ChatInterface.text]).
Proof. reflexivity. Qed.

(** C8. Send guard: when the draft trims to the empty string, or no
    conversation is focused, the handler returns the state it was given: no
    conversation changes and the draft is not cleared. *)
Theorem send_guard_no_change :
  forall (currentUser : ChatInterface.User.t) (dateNow newDate : Z)
         (st : ChatInterface.State),
    trim (ChatInterface.message st) = [] \/ ChatInterface.selectedChat st = None ->
    ChatInterface.handleSendMessage currentUser dateNow newDate st = st.
Proof.
  intros cu dn nd st [H|H]; unfold ChatInterface.handleSendMessage.
  - rewrite H. reflexivity.
  - rewrite H. destruct (negb _); reflexivity.
Qed.

Lemma send_guard_no_change_witness :
  ChatInterface.handleSendMessage Sample.me 42 43
    (ChatInterface.setMessage (lit "   ") Sample.st0) =
  ChatInterface.setMessage (lit "   ") Sample.st0
  /\
  ChatInterface.handleSendMessage Sample.me 42 43
    (ChatInterface.setSelectedChat None Sample.st0) =
  ChatInterface.setSelectedChat None Sample.st0.
Proof.
  split.
  - apply (send_guard_no_change Sample.me 42 43
             (ChatInterface.setMessage (lit "   ") Sample.st0)).
    left. reflexivity.
  - apply (send_guard_no_change Sample.me 42 43
             (ChatInterface.setSelectedChat None Sample.st0)).
    right. reflexivity.
Defined.

(** C9. Send frame: a send keeps the number of conversations, and every
    conversation whose id differs from the focused conversation's id stays
    at its position with all its fields as they were. *)
Theorem send_frame_other_chats :
  forall (currentUser : ChatInterface.User.t) (dateNow newDate : Z)
         (st : ChatInterface.State) (selected : ChatInterface.Chat.t),
    ChatInterface.selectedChat st = Some selected ->
    trim (ChatInterface.message st) <> [] ->
    let st' := ChatInterface.handleSendMessage currentUser dateNow newDate st in
    List.length (ChatInterface.chats st') = List.length (ChatInterface.chats st) /\
    forall i chat,
      nth_error (ChatInterface.chats st) i = Some chat ->
      ChatInterface.Chat.id chat <> ChatInterface.Chat.id selected ->
      nth_error (ChatInterface.chats st') i = Some chat.
Proof.
  intros cu dn nd st selected Hsel Htrim st'. subst st'.
  rewrite (handleSendMessage_sends cu dn nd st Hsel Htrim). simpl. split.
  - apply length_map.
  - intros i chat Hi Hid. rewrite nth_error_map, Hi. simpl.
    apply eqb_neq in Hid. rewrite Hid. reflexivity.
Qed.

Lemma send_frame_other_chats_witness :
  let st' := ChatInterface.handleSendMessage Sample.me 42 43 Sample.st0 in
  List.length (ChatInterface.chats st') =
  List.length (ChatInterface.chats Sample.st0) /\
  forall i chat,
    nth_error (ChatInterface.chats Sample.st0) i = Some chat ->
    ChatInterface.Chat.id chat <> ChatInterface.Chat.id Sample.chat1 ->
    nth_error (ChatInterface.chats st') i = Some chat.
Proof.
  apply (send_frame_other_chats Sample.me 42 43 Sample.st0
           (selected := Sample.chat1)).
  - reflexivity.
  - discriminate.
Defined.

Example send_frame_run :
  nth_error (ChatInterface.chats
               (ChatInterface.handleSendMessage Sample.me 42 43 Sample.st0)) 1 =
  Some Sample.chat2.
Proof. reflexivity. Qed.

(** ** The realtime subscription *)

(** C3 (as the code has it). The live-event intake applies no inbound
    message: the callback of the [messages] subscription logs each event to
    the console and calls no state setter.  So after any number of
    deliveries the component is as it was before them, with one console
    entry per delivery; in particular delivering a message twice leaves the
    message sequences that delivering it once leaves, and no delivery ever
    adds a second copy of a message. *)
Theorem intake_applies_nothing :
  forall (payloads : list ChatInterface.Payload) (w : ChatInterface.World),
    ChatInterface.component (ChatInterfaceView.deliver payloads w) =
      ChatInterface.component w /\
    ChatInterface.console (ChatInterfaceView.deliver payloads w) =
      ChatInterface.console w ++
      map (fun payload => (lit "New message:", payload)) payloads /\
    (forall payload,
        ChatInterface.chats
          (ChatInterface.component
             (ChatInterfaceView.deliver [payload; payload] w)) =
        ChatInterface.chats
          (ChatInterface.component (ChatInterfaceView.deliver [payload] w))).
Proof.
  intros payloads. induction payloads as [|payload payloads IH]; intros w.
  - simpl. rewrite app_nil_r. repeat split.
  - destruct (IH (ChatInterface.onInsert payload w)) as [Hc [Hl _]].
    unfold ChatInterfaceView.deliver in *. simpl fold_left.
    rewrite Hc, Hl. simpl. rewrite <- app_assoc. repeat split.
Qed.

(** C3, the claim as stated fails: it speaks of applying an inbound message
    to a conversation, and the intake applies none.  A message with an id
    that the conversation ["1"] does not hold, delivered for that
    conversation, is not among its messages afterwards. *)
Lemma remote_message_not_applied_counterexample :
  let w := ChatInterface.mkWorld Sample.st0 [] in
  let once := ChatInterface.onInsert Scenario.fresh_payload w in
  In Sample.chat1 (ChatInterface.chats (ChatInterface.component w)) /\
  ChatInterface.Chat.id Sample.chat1 =
    ChatInterface.chat_id Scenario.fresh_payload /\
  ~ In (ChatInterface.Message.id (ChatInterface.new Scenario.fresh_payload))
       (ChatInterfaceView.message_ids
          (ChatInterface.chat_id Scenario.fresh_payload)
          (ChatInterface.component w)) /\
  ~ In (ChatInterface.Message.id (ChatInterface.new Scenario.fresh_payload))
       (ChatInterfaceView.message_ids
          (ChatInterface.chat_id Scenario.fresh_payload)
          (ChatInterface.component once)) /\
  ChatInterface.component once = ChatInterface.component w.
Proof.
  cbv zeta. split; [left; reflexivity|]. split; [reflexivity|].
  split; [|split; [|reflexivity]];
    intros H; vm_compute in H; intuition discriminate.
Qed.

Example remote_apply_run :
  let payload :=
    ChatInterface.mkPayload (lit "1")
      (ChatInterface.Message.mk (lit "1") (lit "mock-user-1") (lit "Alice Johnson")
         (lit "Hey there! How are you doing?") 1000%Z ChatInterface.text) in
  let w := ChatInterface.mkWorld Sample.st0 [] in
  ChatInterface.component (ChatInterface.onInsert payload w) = Sample.st0 /\
  List.length (ChatInterface.console
                 (ChatInterface.onInsert payload
                    (ChatInterface.onInsert payload w))) = 2.
Proof. split; reflexivity. Qed.

(** ** Chat partner and search *)

Lemma find_first_iff {A} (f : A -> bool) (l : list A) (x : A) :
  find f l = Some x <->
  exists pre post, l = pre ++ x :: post /\ forallb (fun y => negb (f y)) pre = true
                   /\ f x = true.
Proof.
  induction l as [|a l IH]; simpl.
  - split; [discriminate|]. intros [pre [post [H _]]].
    destruct pre; discriminate.
  - destruct (f a) eqn:Fa.
    + split.
      * intros E; injection E as <-. exists [], l. simpl. auto.
      * intros [[|b pre] [post [H [Hpre Hx]]]].
        -- injection H as -> _. reflexivity.
        -- injection H as <- _. simpl in Hpre. rewrite Fa in Hpre. discriminate.
    + rewrite IH. split.
      * intros [pre [post [-> [Hpre Hx]]]]. exists (a :: pre), post.
        simpl. rewrite Fa. auto.
      * intros [[|b pre] [post [H [Hpre Hx]]]].
        -- injection H as <- _. congruence.
        -- injection H as _ ->. simpl in Hpre.
           apply andb_true_iff in Hpre. destruct Hpre as [_ Hpre]. eauto.
Qed.

Lemma find_none_iff {A} (f : A -> bool) (l : list A) :
  find f l = None <-> forallb (fun y => negb (f y)) l = true.
Proof.
  induction l as [|a l IH]; simpl; [tauto|].
  destruct (f a); simpl; [split; discriminate | exact IH].
Qed.

Lemma same_id_forallb (cu : ChatInterface.User.t) (l : list ChatInterface.User.t) :
  forallb (fun y => negb (negb (JS.eqb (ChatInterface.User.id y)
                                     (ChatInterface.User.id cu)))) l = true <->
  Forall (fun q => ChatInterface.User.id q = ChatInterface.User.id cu) l.
Proof.
  rewrite forallb_forall, Forall_forall. split; intros H x Hx.
  - specialize (H x Hx). rewrite negb_involutive in H. apply eqb_spec, H.
  - rewrite negb_involutive. apply eqb_spec, H, Hx.
Qed.

(** C4 (as the code has it). [getChatPartner] returns the first participant,
    in the order of the participant list, whose id differs from the local
    user's id; it returns none exactly when every participant has the local
    user's id (an empty list, or only the local user).  For a conversation of
    the local user and one other participant, in either order, that is the
    other participant.  [isGroup] plays no part: conversations with the same
    participants have the same partner.  Being a total function, it never
    throws. *)
Theorem counterpart_first_other :
  forall (currentUser : ChatInterface.User.t) (chat : ChatInterface.Chat.t),
    (forall p,
        ChatInterface.getChatPartner currentUser chat = Some p <->
        exists pre post,
          ChatInterface.Chat.participants chat = pre ++ p :: post /\
          Forall (fun q => ChatInterface.User.id q =
                           ChatInterface.User.id currentUser) pre /\
          ChatInterface.User.id p <> ChatInterface.User.id currentUser) /\
    (ChatInterface.getChatPartner currentUser chat = None <->
     Forall (fun q => ChatInterface.User.id q =
                      ChatInterface.User.id currentUser)
            (ChatInterface.Chat.participants chat)) /\
    (forall p,
        ChatInterface.User.id p <> ChatInterface.User.id currentUser ->
        ChatInterface.Chat.participants chat = [currentUser; p] \/
        ChatInterface.Chat.participants chat = [p; currentUser] ->
        ChatInterface.getChatPartner currentUser chat = Some p) /\
    (forall chat',
        ChatInterface.Chat.participants chat' =
        ChatInterface.Chat.participants chat ->
        ChatInterface.getChatPartner currentUser chat' =
        ChatInterface.getChatPartner currentUser chat).
Proof.
  intros cu chat. unfold ChatInterface.getChatPartner.
  split; [|split; [|split]].
  - intros p. rewrite find_first_iff. split.
    + intros [pre [post [H [Hpre Hp]]]]. exists pre, post.
      split; [exact H|]. split; [apply same_id_forallb, Hpre|].
      apply negb_true_iff in Hp. apply eqb_neq, Hp.
    + intros [pre [post [H [Hpre Hp]]]]. exists pre, post.
      split; [exact H|]. split; [apply same_id_forallb, Hpre|].
      apply negb_true_iff. apply eqb_neq, Hp.
  - rewrite find_none_iff. apply same_id_forallb.
  - intros p Hp [H|H]; rewrite H; simpl; apply eqb_neq in Hp;
      rewrite eqb_refl, Hp; reflexivity.
  - intros chat' H. rewrite H. reflexivity.
Qed.

(** C4, the claim as stated fails: for a group conversation
    [getChatPartner] returns a participant, not none. *)
Lemma counterpart_group_counterexample :
  ChatInterface.Chat.isGroup Sample.group = true /\
  ChatInterface.getChatPartner Sample.me Sample.group = Some Sample.alice /\
  ChatInterface.getChatPartner Sample.me Sample.group <> None.
Proof. repeat split. discriminate. Qed.

Lemma counterpart_first_other_witness :
  ChatInterface.getChatPartner Sample.me Sample.chat2 = Some Sample.bob /\
  ChatInterface.getChatPartner Sample.me Sample.solo = None.
Proof.
  pose proof (counterpart_first_other Sample.me Sample.chat2) as [_ [_ [H2 _]]].
  pose proof (counterpart_first_other Sample.me Sample.solo) as [_ [H1 _]].
  split.
  - apply H2; [discriminate | right; reflexivity].
  - apply H1. repeat constructor.
Defined.

Example counterpart_two_party :
  ChatInterface.getChatPartner Sample.me Sample.chat2 = Some Sample.bob.
Proof. reflexivity. Qed.

Example counterpart_only_local :
  ChatInterface.getChatPartner Sample.me Sample.solo = None.
Proof. reflexivity. Qed.

Lemma filter_subseq {A} (f : A -> bool) (l : list A) : subseq (filter f l) l.
Proof.
  induction l as [|x l IH]; simpl; [constructor|].
  destruct (f x); constructor; exact IH.
Qed.

Section Search.

Import ChatInterface.

Variable currentUser : User.t.
Variable toLowerCase : jsstring -> jsstring.

(** The filter predicate holds exactly when the lower-cased query occurs in
    the lower-cased name of the chat partner, if there is one, or in the
    lower-cased name of the conversation, if it has one. *)
Lemma chatMatches_true_iff (q : jsstring) (chat : Chat.t) :
  toBoolean (chatMatches currentUser toLowerCase q chat) = true <->
  (exists p pre post,
      getChatPartner currentUser chat = Some p /\
      toLowerCase (User.name p) = pre ++ toLowerCase q ++ post) \/
  (exists n pre post,
      Chat.name chat = Some n /\
      toLowerCase n = pre ++ toLowerCase q ++ post).
Proof.
  unfold chatMatches.
  destruct (getChatPartner currentUser chat) as [p|];
    destruct (Chat.name chat) as [n|]; simpl.
  - destruct (includes (toLowerCase (User.name p)) (toLowerCase q)) eqn:Ep; simpl.
    + split; [|reflexivity]. intros _. left.
      apply includes_spec in Ep. destruct Ep as [pre [post E]]. eauto 6.
    + destruct (includes (toLowerCase n) (toLowerCase q)) eqn:En; simpl.
      * split; [|reflexivity]. intros _. right.
        apply includes_spec in En. destruct En as [pre [post E]]. eauto 6.
      * split; [discriminate|].
        intros [[p' [pre [post [H E]]]] | [n' [pre [post [H E]]]]];
          injection H as <-.
        -- assert (X : includes (toLowerCase (User.name p)) (toLowerCase q) = true)
             by (apply includes_spec; eauto).
           congruence.
        -- assert (X : includes (toLowerCase n) (toLowerCase q) = true)
             by (apply includes_spec; eauto).
           congruence.
  - destruct (includes (toLowerCase (User.name p)) (toLowerCase q)) eqn:Ep; simpl.
    + split; [|reflexivity]. intros _. left.
      apply includes_spec in Ep. destruct Ep as [pre [post E]]. eauto 6.
    + split; [discriminate|].
      intros [[p' [pre [post [H E]]]] | [n' [pre [post [H E]]]]];
        [injection H as <- | discriminate].
      assert (X : includes (toLowerCase (User.name p)) (toLowerCase q) = true)
        by (apply includes_spec; eauto).
      congruence.
  - destruct (includes (toLowerCase n) (toLowerCase q)) eqn:En; simpl.
    + split; [|reflexivity]. intros _. right.
      apply includes_spec in En. destruct En as [pre [post E]]. eauto 6.
    + split; [discriminate|].
      intros [[p' [pre [post [H E]]]] | [n' [pre [post [H E]]]]];
        [discriminate | injection H as <-].
      assert (X : includes (toLowerCase n) (toLowerCase q) = true)
        by (apply includes_spec; eauto).
      congruence.
  - split; [discriminate|].
    intros [[p' [pre [post [H E]]]] | [n' [pre [post [H E]]]]]; discriminate.
Qed.

(** With the empty query every conversation that has a partner or a name
    passes the filter, and no other. *)
Lemma chatMatches_empty_query (chat : Chat.t) :
  toLowerCase [] = [] ->
  toBoolean (chatMatches currentUser toLowerCase [] chat) =
  has_partner_or_name currentUser chat.
Proof.
  intros H0. unfold chatMatches, has_partner_or_name. rewrite H0.
  destruct (getChatPartner currentUser chat) as [p|];
    destruct (Chat.name chat) as [n|]; simpl;
    rewrite ?includes_nil; reflexivity.
Qed.

End Search.

(** C5 (as the code has it). [filteredChats] keeps exactly the conversations
    of the list for which the lower-cased query is a substring of the
    lower-cased name of the chat partner, when there is a partner, or of the
    lower-cased conversation name, when there is a name; the kept
    conversations stay in the order of the list.  For the empty query,
    lower-casing the empty string giving the empty string, the result is the
    list of conversations that have a partner or a name, in list order. *)
Theorem search_semantics :
  forall (currentUser : ChatInterface.User.t)
         (toLowerCase : jsstring -> jsstring) (st : ChatInterface.State),
    (forall chat,
        In chat (ChatInterface.filteredChats currentUser toLowerCase st) <->
        In chat (ChatInterface.chats st) /\
        ((exists p pre post,
             ChatInterface.getChatPartner currentUser chat = Some p /\
             toLowerCase (ChatInterface.User.name p) =
             pre ++ toLowerCase (ChatInterface.searchQuery st) ++ post) \/
         (exists n pre post,
             ChatInterface.Chat.name chat = Some n /\
             toLowerCase n =
             pre ++ toLowerCase (ChatInterface.searchQuery st) ++ post))) /\
    subseq (ChatInterface.filteredChats currentUser toLowerCase st)
           (ChatInterface.chats st) /\
    (toLowerCase [] = [] ->
     ChatInterface.searchQuery st = [] ->
     ChatInterface.filteredChats currentUser toLowerCase st =
     filter (ChatInterface.has_partner_or_name currentUser)
            (ChatInterface.chats st)).
Proof.
  intros cu lower st. unfold ChatInterface.filteredChats.
  split; [|split].
  - intros chat. rewrite filter_In, chatMatches_true_iff. reflexivity.
  - apply filter_subseq.
  - intros H0 Hq. rewrite Hq. apply filter_ext.
    intros chat. apply chatMatches_empty_query, H0.
Qed.

Lemma search_semantics_witness :
  (forall chat,
      In chat (ChatInterface.filteredChats Sample.me toLowerCaseASCII Sample.st_solo) <->
      In chat (ChatInterface.chats Sample.st_solo) /\
      ((exists p pre post,
           ChatInterface.getChatPartner Sample.me chat = Some p /\
           toLowerCaseASCII (ChatInterface.User.name p) =
           pre ++ toLowerCaseASCII (ChatInterface.searchQuery Sample.st_solo) ++ post) \/
       (exists n pre post,
           ChatInterface.Chat.name chat = Some n /\
           toLowerCaseASCII n =
           pre ++ toLowerCaseASCII (ChatInterface.searchQuery Sample.st_solo) ++ post))) /\
  subseq (ChatInterface.filteredChats Sample.me toLowerCaseASCII Sample.st_solo)
         (ChatInterface.chats Sample.st_solo) /\
  ChatInterface.filteredChats Sample.me toLowerCaseASCII Sample.st_solo =
  filter (ChatInterface.has_partner_or_name Sample.me)
         (ChatInterface.chats Sample.st_solo).
Proof.
  pose proof (search_semantics Sample.me toLowerCaseASCII Sample.st_solo)
    as [Hin [Hsub Hempty]].
  split; [exact Hin|]. split; [exact Hsub|].
  apply Hempty; reflexivity.
Defined.

(** C5, the claim as stated fails: with the empty query a conversation that
    has neither a partner nor a name is left out. *)
Lemma search_empty_query_counterexample :
  ChatInterface.searchQuery Sample.st_solo = [] /\
  ChatInterface.chats Sample.st_solo = [Sample.chat1; Sample.solo] /\
  ChatInterface.filteredChats Sample.me toLowerCaseASCII Sample.st_solo =
  [Sample.chat1] /\
  ChatInterface.filteredChats Sample.me toLowerCaseASCII Sample.st_solo <>
  ChatInterface.chats Sample.st_solo.
Proof. repeat split. discriminate. Qed.

Example search_case_insensitive :
  ChatInterface.filteredChats Sample.me toLowerCaseASCII
    (ChatInterface.mkState None [Sample.chat1; Sample.chat2; Sample.group]
       [] (lit "aLiCe") false false false) =
  [Sample.chat1; Sample.group].
Proof. reflexivity. Qed.

Example search_group_by_name :
  ChatInterface.filteredChats Sample.me toLowerCaseASCII
    (ChatInterface.mkState None [Sample.chat1; Sample.chat2; Sample.group]
       [] (lit "team") false false false) =
  [Sample.group].
Proof. reflexivity. Qed.

(** ** Registration and logout *)

(** C6. Register: when the service accepts the sign-up, the submitted email
    becomes the pending email and the mode becomes [otp], while
    [currentUser], [user] and [session] keep their values.  When the
    sign-up fails, by an error in the response or by a rejected promise,
    the mode and the pending email keep their values, so a form submitted in
    mode [register] stays there. *)
Theorem register_transition :
  forall (origin : jsstring) (data : ChatApp.RegisterData.t)
         (answer : Effect.settled Supabase.Response) (st : ChatApp.Store),
    let st' := Effect.exec (ChatApp.handleRegister origin data answer) st in
    (answer = Effect.Fulfilled None ->
     ChatApp.pendingEmail st' = ChatApp.RegisterData.email data /\
     ChatApp.authMode st' = ChatApp.otp /\
     ChatApp.currentUser st' = ChatApp.currentUser st /\
     ChatApp.user st' = ChatApp.user st /\
     ChatApp.session st' = ChatApp.session st) /\
    (answer <> Effect.Fulfilled None ->
     ChatApp.authMode st' = ChatApp.authMode st /\
     (ChatApp.authMode st = ChatApp.register ->
      ChatApp.authMode st' = ChatApp.register) /\
     ChatApp.pendingEmail st' = ChatApp.pendingEmail st /\
     ChatApp.currentUser st' = ChatApp.currentUser st /\
     ChatApp.user st' = ChatApp.user st /\
     ChatApp.session st' = ChatApp.session st).
Proof.
  intros origin data answer st. cbv zeta. split.
  - intros ->. repeat split.
  - intros Hfail. destruct answer as [[e|]|[e|n]]; [| contradiction | |];
      repeat split; intros H; exact H.
Qed.

Lemma register_transition_witness :
  (let st' := Effect.exec
                (ChatApp.handleRegister (lit "https://chat.example")
                   Sample.jane_data (Effect.Fulfilled None))
                Sample.app_register in
   ChatApp.pendingEmail st' = lit "jane@x.com" /\
   ChatApp.authMode st' = ChatApp.otp /\
   ChatApp.currentUser st' = None /\
   ChatApp.user st' = None /\
   ChatApp.session st' = None)
  /\
  (let st' := Effect.exec
                (ChatApp.handleRegister (lit "https://chat.example")
                   Sample.jane_data
                   (Effect.Fulfilled (Some Sample.network_down)))
                Sample.app_register in
   ChatApp.authMode st' = ChatApp.register /\
   ChatApp.pendingEmail st' = []).
Proof.
  split.
  - apply (proj1 (register_transition (lit "https://chat.example")
                    Sample.jane_data (Effect.Fulfilled None)
                    Sample.app_register)).
    reflexivity.
  - pose proof (proj2 (register_transition (lit "https://chat.example")
                         Sample.jane_data
                         (Effect.Fulfilled (Some Sample.network_down))
                         Sample.app_register)) as H.
    cbv zeta in H.
    assert (Hne : Effect.Fulfilled (Some Sample.network_down) <>
                  Effect.Fulfilled (@None Effect.Error)) by discriminate.
    destruct (H Hne) as [_ [Hm [Hp _]]].
    split; [apply Hm; reflexivity | exact Hp].
Defined.

Example register_request_sent :
  ChatApp.requests
    (Effect.exec
       (ChatApp.handleRegister (lit "https://chat.example") Sample.jane_data
          (Effect.Fulfilled None)) Sample.app_register) =
  [Supabase.SignUp (lit "jane@x.com") (lit "secret1")
                   (lit "https://chat.example/") (lit "Jane Doe")].
Proof. reflexivity. Qed.

(** C2 (as the code has it). Logout: when the remote sign-out succeeds, the
    mode becomes [login] and [currentUser], [user] and [session] become
    null.  When it fails, by an error in the response or by a promise
    rejected with an error value, a "Logout failed" toast reports it, and
    the mode, [currentUser], [user] and [session] keep their values.  They
    keep their values too when the promise is rejected with null or
    undefined; then reading [error.message] throws and no toast is
    raised. *)
Theorem logout_transition :
  forall (answer : Effect.settled Supabase.Response) (st : ChatApp.Store),
    let st' := Effect.exec (ChatApp.handleLogout answer) st in
    (answer = Effect.Fulfilled None ->
     ChatApp.authMode st' = ChatApp.login /\
     ChatApp.currentUser st' = None /\
     ChatApp.user st' = None /\
     ChatApp.session st' = None) /\
    (forall e,
        answer = Effect.Fulfilled (Some e) \/
        answer = Effect.Rejected (Effect.Object e) ->
        ChatApp.toasts st' =
          ChatApp.toasts st ++
          [Toast.mk (lit "Logout failed")
                    (or_else (Effect.message e) (lit "Please try again."))
                    Toast.destructive] /\
        ChatApp.authMode st' = ChatApp.authMode st /\
        ChatApp.currentUser st' = ChatApp.currentUser st /\
        ChatApp.user st' = ChatApp.user st /\
        ChatApp.session st' = ChatApp.session st) /\
    (forall n,
        answer = Effect.Rejected (Effect.NotAnObject n) ->
        snd (ChatApp.handleLogout answer st) =
          Effect.Throw (Effect.Object (Effect.TypeError n)) /\
        ChatApp.toasts st' = ChatApp.toasts st /\
        ChatApp.authMode st' = ChatApp.authMode st /\
        ChatApp.currentUser st' = ChatApp.currentUser st /\
        ChatApp.user st' = ChatApp.user st /\
        ChatApp.session st' = ChatApp.session st).
Proof.
  intros answer st. cbv zeta. split; [|split].
  - intros ->. repeat split.
  - intros e [-> | ->]; repeat split.
  - intros n ->. repeat split.
Qed.

Lemma logout_transition_witness :
  (let st' := Effect.exec (ChatApp.handleLogout (Effect.Fulfilled None))
                          Sample.app_active in
   ChatApp.authMode st' = ChatApp.login /\
   ChatApp.currentUser st' = None /\
   ChatApp.user st' = None /\
   ChatApp.session st' = None)
  /\
  (let st' := Effect.exec
                (ChatApp.handleLogout
                   (Effect.Rejected (Effect.Object Sample.network_down)))
                Sample.app_active in
   ChatApp.toasts st' =
     [Toast.mk (lit "Logout failed") (lit "Failed to fetch") Toast.destructive] /\
   ChatApp.authMode st' = ChatApp.chat)
  /\
  (let st' := Effect.exec
                (ChatApp.handleLogout
                   (Effect.Rejected (Effect.NotAnObject Effect.null)))
                Sample.app_active in
   ChatApp.toasts st' = [] /\
   ChatApp.authMode st' = ChatApp.chat).
Proof.
  split; [|split].
  - apply (proj1 (logout_transition (Effect.Fulfilled None) Sample.app_active)).
    reflexivity.
  - pose proof (proj1 (proj2 (logout_transition
                         (Effect.Rejected (Effect.Object Sample.network_down))
                         Sample.app_active)) Sample.network_down
                      (or_intror eq_refl)) as H.
    cbv zeta in H. destruct H as [Ht [Hm _]].
    split; [exact Ht | exact Hm].
  - pose proof (proj2 (proj2 (logout_transition
                         (Effect.Rejected (Effect.NotAnObject Effect.null))
                         Sample.app_active)) Effect.null eq_refl) as H.
    cbv zeta in H. destruct H as [_ [Ht [Hm _]]].
    split; [exact Ht | exact Hm].
Defined.

(** C2, the claim as stated fails: after a sign-out that the service
    answers with an error the mode is still [chat] and the principal and
    profile are still set. *)
Lemma logout_failure_counterexample :
  let st' := Effect.exec
               (ChatApp.handleLogout
                  (Effect.Fulfilled (Some Sample.network_down)))
               Sample.app_active in
  ChatApp.authMode st' = ChatApp.chat /\
  ChatApp.authMode st' <> ChatApp.login /\
  ChatApp.currentUser st' <> None /\
  ChatApp.user st' <> None /\
  ChatApp.session st' <> None.
Proof. cbv zeta. repeat split; discriminate. Qed.

(** ** Profile derivation *)

(** C7. The profile the program resolves for a signed-in principal does
    not follow the claim.  [fetchUserProfile] reads the state variable
    [user], and its only callers are the callbacks of the mount effect,
    whose dependency list is [[]]: they keep the [user] of the first render,
    which is null.  For the principal with id "u-1" and email
    "jane@x.com", whose local part is "jane", the sign-in event schedules
    one fetch for "u-1", and that fetch sets a profile named "User", with
    an empty email and the avatar of the seed "undefined". *)
Theorem profile_shown_ignores_email :
  let principal := Supabase.Session.user Scenario.jane_session in
  let signed_in :=
    ChatAppSession.onAuthStateChange (Some Scenario.jane_session)
                                     ChatAppSession.initial in
  let st := Effect.exec (ChatAppSession.timer 5%Z 6%Z (lit "u-1"))
                        (fst signed_in) in
  Supabase.User.id principal = lit "u-1" /\
  Supabase.User.email principal = Some (lit "jane@x.com") /\
  ChatApp.email_local_part (Some principal) = Some (lit "jane") /\
  ChatApp.user (fst signed_in) = Some principal /\
  ChatAppSession.mount_user = None /\
  snd signed_in = Effect.Normal [lit "u-1"] /\
  option_map ChatApp.UserProfile.id (ChatApp.currentUser st) =
    Some (lit "u-1") /\
  option_map ChatApp.UserProfile.name (ChatApp.currentUser st) =
    Some (lit "User") /\
  option_map ChatApp.UserProfile.email (ChatApp.currentUser st) = Some [] /\
  option_map ChatApp.UserProfile.avatar (ChatApp.currentUser st) =
    Some (Some (lit "https://api.dicebear.com/7.x/avataaars/svg?seed=undefined")) /\
  lit "User" <> lit "jane".
Proof. cbv zeta. repeat split. discriminate. Qed.

Example profile_absent_email :
  option_map (fun p => (ChatApp.UserProfile.name p, ChatApp.UserProfile.avatar p))
    (ChatApp.currentUser
       (Effect.exec (ChatApp.fetchUserProfile None 5%Z 6%Z (lit "u-1"))
                    Sample.app_otp))
  = Some (lit "User",
          Some (lit "https://api.dicebear.com/7.x/avataaars/svg?seed=undefined")).
Proof. reflexivity. Qed.

(** ** The verification form *)

Section OTPFormGeneric.

Variable P : Type.
Variable onSubmit : jsstring -> Effect.M P unit.

(** With a code that does not have six code units the handler raises the
    "Invalid OTP" toast and does nothing else, whatever [onSubmit] is. *)
Lemma handleSubmit_rejects (s : OTPForm.Store P) :
  JS.length (OTPForm.otp s) <> 6 ->
  OTPForm.handleSubmit onSubmit s =
  (OTPForm.mkStore (OTPForm.otp s) (OTPForm.isResending s)
     (OTPForm.toasts s ++
      [Toast.mk (lit "Invalid OTP") (lit "Please enter a 6-digit OTP")
                Toast.destructive])
     (OTPForm.parent s),
   Effect.Normal tt).
Proof.
  intros H. unfold OTPForm.handleSubmit.
  apply Nat.eqb_neq in H. rewrite H. reflexivity.
Qed.

(** With a code of six code units [onSubmit] runs once, on that code. *)
Lemma handleSubmit_submits (s : OTPForm.Store P) :
  JS.length (OTPForm.otp s) = 6 ->
  OTPForm.parent (Effect.exec (OTPForm.handleSubmit onSubmit) s) =
  Effect.exec (onSubmit (OTPForm.otp s)) (OTPForm.parent s).
Proof.
  intros H. unfold OTPForm.handleSubmit, Effect.exec.
  apply Nat.eqb_eq in H. rewrite H. simpl.
  unfold Effect.try_catch, Effect.bind, OTPForm.in_parent.
  destruct (onSubmit (OTPForm.otp s) (OTPForm.parent s)) as [p' [[]|e]];
    reflexivity.
Qed.

End OTPFormGeneric.

(** C10. OTP length: the submit handler of the verification form sends the
    [verifyOtp] request, for the pending email and the entered code, if and
    only if the code has exactly six code units.  With any other length it
    raises the "Invalid OTP" toast and leaves the form state, the parent's
    state and the list of requests as they were.  With six it raises no
    "Invalid OTP" toast: its one toast is "Email verified!" when the
    parent's handler returns, and "Verification failed" when that handler
    throws, which it does for a call rejected with null or undefined.  The
    "Verify Email" button is enabled only with six. *)
Theorem otp_length_gate :
  forall (answer : Effect.settled Supabase.Response)
         (s : OTPForm.Store ChatApp.Store),
    let s' := Effect.exec (OTPForm.rendered_handleSubmit answer) s in
    let invalid := Toast.mk (lit "Invalid OTP")
                            (lit "Please enter a 6-digit OTP")
                            Toast.destructive in
    (ChatApp.requests (OTPForm.parent s') =
       ChatApp.requests (OTPForm.parent s) ++
       [Supabase.VerifyOtp (ChatApp.pendingEmail (OTPForm.parent s))
                           (OTPForm.otp s)]
     <-> JS.length (OTPForm.otp s) = 6) /\
    (JS.length (OTPForm.otp s) <> 6 ->
     s' = OTPForm.mkStore (OTPForm.otp s) (OTPForm.isResending s)
                          (OTPForm.toasts s ++ [invalid]) (OTPForm.parent s)) /\
    (JS.length (OTPForm.otp s) = 6 ->
     OTPForm.toasts s' =
       OTPForm.toasts s ++
       [match answer with
        | Effect.Rejected (Effect.NotAnObject _) =>
            Toast.mk (lit "Verification failed")
                     (lit "Invalid OTP. Please try again.")
                     Toast.destructive
        | _ =>
            Toast.mk (lit "Email verified!")
                     (lit "Your account has been successfully verified.")
                     Toast.default
        end] /\
     OTPForm.otp s' = OTPForm.otp s /\
     OTPForm.isResending s' = OTPForm.isResending s) /\
    (OTPForm.verifyDisabled (Some (ChatApp.isLoading (OTPForm.parent s))) s = false ->
     JS.length (OTPForm.otp s) = 6).
Proof.
  intros answer s. cbv zeta.
  assert (Hsix : JS.length (OTPForm.otp s) = 6 ->
                 Effect.exec (OTPForm.rendered_handleSubmit answer) s =
                 OTPForm.mkStore (OTPForm.otp s) (OTPForm.isResending s)
                   (OTPForm.toasts s ++
                    [match answer with
                     | Effect.Rejected (Effect.NotAnObject _) =>
                         Toast.mk (lit "Verification failed")
                                  (lit "Invalid OTP. Please try again.")
                                  Toast.destructive
                     | _ =>
                         Toast.mk (lit "Email verified!")
                           (lit "Your account has been successfully verified.")
                           Toast.default
                     end])
                   (Effect.exec
                      (ChatApp.handleOTPVerification (OTPForm.otp s) answer)
                      (OTPForm.parent s))).
  { intros H. unfold OTPForm.rendered_handleSubmit, OTPForm.handleSubmit,
      Effect.exec.
    apply Nat.eqb_eq in H. rewrite H.
    destruct answer as [[e|]|[e|n]]; reflexivity. }
  assert (Hnot : JS.length (OTPForm.otp s) <> 6 ->
                 Effect.exec (OTPForm.rendered_handleSubmit answer) s =
                 OTPForm.mkStore (OTPForm.otp s) (OTPForm.isResending s)
                   (OTPForm.toasts s ++
                    [Toast.mk (lit "Invalid OTP")
                       (lit "Please enter a 6-digit OTP") Toast.destructive])
                   (OTPForm.parent s)).
  { intros H. unfold OTPForm.rendered_handleSubmit, Effect.exec.
    rewrite (handleSubmit_rejects _ s H). reflexivity. }
  split; [|split; [|split]].
  - split.
    + intros Hreq.
      destruct (Nat.eq_dec (JS.length (OTPForm.otp s)) 6) as [E|E]; [exact E|].
      rewrite (Hnot E) in Hreq. simpl in Hreq.
      rewrite <- (app_nil_r (ChatApp.requests (OTPForm.parent s))) in Hreq at 1.
      apply app_inv_head in Hreq. discriminate.
    + intros E. rewrite (Hsix E). simpl.
      destruct answer as [[e|]|[e|n]]; reflexivity.
  - exact Hnot.
  - intros E. rewrite (Hsix E). simpl. repeat split.
  - unfold OTPForm.verifyDisabled.
    destruct (ChatApp.isLoading (OTPForm.parent s)); [discriminate|].
    intros H. apply negb_false_iff, Nat.eqb_eq in H. exact H.
Qed.

Lemma otp_length_gate_witness :
  (Effect.exec (OTPForm.rendered_handleSubmit (Effect.Fulfilled None))
               Sample.form_short =
   OTPForm.mkStore (lit "12345") false
     [Toast.mk (lit "Invalid OTP") (lit "Please enter a 6-digit OTP")
               Toast.destructive]
     Sample.app_otp)
  /\
  (OTPForm.toasts
     (Effect.exec (OTPForm.rendered_handleSubmit (Effect.Fulfilled None))
                  Sample.form_full) =
   [Toast.mk (lit "Email verified!")
             (lit "Your account has been successfully verified.")
             Toast.default])
  /\
  JS.length (OTPForm.otp Sample.form_full) = 6.
Proof.
  pose proof (otp_length_gate (Effect.Fulfilled None) Sample.form_short)
    as [_ [Hshort _]].
  pose proof (otp_length_gate (Effect.Fulfilled None) Sample.form_full)
    as [_ [_ [Hfull Hbutton]]].
  split; [|split].
  - apply Hshort. discriminate.
  - apply Hfull. reflexivity.
  - apply Hbutton. reflexivity.
Defined.

Example otp_request_sent :
  ChatApp.requests
    (OTPForm.parent
       (Effect.exec (OTPForm.rendered_handleSubmit (Effect.Fulfilled None))
                    Sample.form_full)) =
  [Supabase.VerifyOtp (lit "jane@x.com") (lit "123456")].
Proof. reflexivity. Qed.

Example otp_click_disabled :
  Effect.exec (OTPForm.rendered_clickVerify (Effect.Fulfilled None))
              Sample.form_short = Sample.form_short.
Proof. reflexivity. Qed.

(* ===================================================================== *)
(** * Further properties of the chat interface *)
(* ===================================================================== *)

Lemma lit_inj (a b : string) : lit a = lit b -> a = b.
Proof.
  unfold lit. intros H.
  rewrite <- (string_of_list_ascii_of_string a),
          <- (string_of_list_ascii_of_string b).
  f_equal.
  revert H. generalize (list_ascii_of_string a) (list_ascii_of_string b).
  intros l; induction l as [|x l IH]; intros [|y l']; simpl;
    try discriminate; [reflexivity|].
  intros H. injection H as Hxy Hl. f_equal; [|apply IH, Hl].
  rewrite <- (ascii_N_embedding x), <- (ascii_N_embedding y), Hxy.
  reflexivity.
Qed.

Lemma to_int_not_nil (z : Z) :
  Z.to_int z <> Decimal.Pos Decimal.Nil /\ Z.to_int z <> Decimal.Neg Decimal.Nil.
Proof.
  destruct z; simpl; split; try discriminate; intros H; injection H as H;
    exact (DecimalPos.Unsigned.to_uint_nonnil p H).
Qed.

(** Printing a time value in decimal loses nothing. *)
Lemma number_toString_inj (a b : Z) :
  number_toString a = number_toString b -> a = b.
Proof.
  unfold number_toString. intros H. apply lit_inj in H.
  assert (E : NilZero.int_of_string (NilZero.string_of_int (Z.to_int a)) =
              NilZero.int_of_string (NilZero.string_of_int (Z.to_int b)))
    by (rewrite H; reflexivity).
  destruct (to_int_not_nil a) as [Ha1 Ha2].
  destruct (to_int_not_nil b) as [Hb1 Hb2].
  rewrite !NilZero.isi in E by assumption.
  injection E as E.
  rewrite <- (DecimalZ.of_to a), <- (DecimalZ.of_to b), E. reflexivity.
Qed.

Lemma lastMessage_snoc (chat : ChatInterface.Chat.t)
      (ms : list ChatInterface.Message.t) (m : ChatInterface.Message.t) :
  ChatInterfaceView.lastMessage
    (ChatInterface.Chat.with_messages chat (ms ++ [m])) = Some m.
Proof.
  unfold ChatInterfaceView.lastMessage. simpl.
  rewrite length_app. simpl. rewrite Nat.add_1_r.
  rewrite nth_error_app2 by lia. rewrite Nat.sub_diag. reflexivity.
Qed.

(** X1. A second send right after a first changes nothing: the first one
    clears the draft, so the guard stops the second, whatever the clock
    reads. *)
Theorem send_twice_sends_once :
  forall (currentUser : ChatInterface.User.t) (d1 n1 d2 n2 : Z)
         (st : ChatInterface.State),
    ChatInterface.handleSendMessage currentUser d2 n2
      (ChatInterface.handleSendMessage currentUser d1 n1 st) =
    ChatInterface.handleSendMessage currentUser d1 n1 st.
Proof.
  intros cu d1 n1 d2 n2 st. unfold ChatInterface.handleSendMessage at 2 3.
  destruct (truthy (trim (ChatInterface.message st))) eqn:T; simpl.
  - destruct (ChatInterface.selectedChat st) as [selected|] eqn:S.
    + reflexivity.
    + unfold ChatInterface.handleSendMessage. rewrite T, S. reflexivity.
  - unfold ChatInterface.handleSendMessage. rewrite T. reflexivity.
Qed.

(** X2. The [disabled] attribute of the send button blocks nothing that the
    handler's own guard would let through: a click on the button, and a
    press of the Enter key, lead to the state the handler gives; any other
    key changes nothing. *)
Theorem send_button_gate_is_the_guard :
  forall (currentUser : ChatInterface.User.t) (dateNow newDate : Z)
         (st : ChatInterface.State),
    ChatInterfaceView.clickSend currentUser dateNow newDate st =
      ChatInterface.handleSendMessage currentUser dateNow newDate st /\
    ChatInterfaceView.onKeyPress currentUser (lit "Enter") dateNow newDate st =
      ChatInterface.handleSendMessage currentUser dateNow newDate st /\
    (forall key, key <> lit "Enter" ->
       ChatInterfaceView.onKeyPress currentUser key dateNow newDate st = st).
Proof.
  intros cu d n st. split; [|split].
  - unfold ChatInterfaceView.clickSend, ChatInterfaceView.sendDisabled,
      ChatInterface.handleSendMessage.
    destruct (negb (truthy (trim (ChatInterface.message st)))); reflexivity.
  - reflexivity.
  - intros key Hk. unfold ChatInterfaceView.onKeyPress.
    apply eqb_neq in Hk. rewrite Hk. reflexivity.
Qed.

Lemma send_button_gate_is_the_guard_witness :
  ChatInterfaceView.onKeyPress Sample.me (lit "a") 42 43 Sample.st0 = Sample.st0.
Proof.
  apply (proj2 (proj2 (send_button_gate_is_the_guard Sample.me 42 43 Sample.st0))).
  discriminate.
Defined.

(** X3. The id of a sent message is the decimal numeral of [Date.now()]:
    the messages two passing sends append have the same id exactly when the
    two clock reads were equal, whoever sends and whatever the
    conversation. *)
Theorem sent_ids_follow_clock :
  forall (cu1 cu2 : ChatInterface.User.t) (d1 n1 d2 n2 : Z)
         (st1 st2 : ChatInterface.State) (c1 c2 : ChatInterface.Chat.t),
    ChatInterface.selectedChat st1 = Some c1 ->
    trim (ChatInterface.message st1) <> [] ->
    ChatInterface.selectedChat st2 = Some c2 ->
    trim (ChatInterface.message st2) <> [] ->
    exists f1 f2 m1 m2,
      ChatInterface.selectedChat
        (ChatInterface.handleSendMessage cu1 d1 n1 st1) = Some f1 /\
      ChatInterface.selectedChat
        (ChatInterface.handleSendMessage cu2 d2 n2 st2) = Some f2 /\
      ChatInterfaceView.lastMessage f1 = Some m1 /\
      ChatInterfaceView.lastMessage f2 = Some m2 /\
      (ChatInterface.Message.id m1 = ChatInterface.Message.id m2 <-> d1 = d2).
Proof.
  intros cu1 cu2 d1 n1 d2 n2 st1 st2 c1 c2 S1 T1 S2 T2.
  rewrite (handleSendMessage_sends cu1 d1 n1 st1 S1 T1).
  rewrite (handleSendMessage_sends cu2 d2 n2 st2 S2 T2). simpl.
  do 4 eexists. split; [reflexivity|]. split; [reflexivity|].
  split; [apply lastMessage_snoc|]. split; [apply lastMessage_snoc|].
  simpl. split.
  - apply number_toString_inj.
  - intros ->. reflexivity.
Qed.

Lemma sent_ids_follow_clock_witness :
  exists f1 f2 m1 m2,
    ChatInterface.selectedChat
      (ChatInterface.handleSendMessage Sample.me 42 43 Sample.st0) = Some f1 /\
    ChatInterface.selectedChat
      (ChatInterface.handleSendMessage Sample.alice 42 50 Scenario.st_typed)
      = Some f2 /\
    ChatInterfaceView.lastMessage f1 = Some m1 /\
    ChatInterfaceView.lastMessage f2 = Some m2 /\
    (ChatInterface.Message.id m1 = ChatInterface.Message.id m2 <-> 42%Z = 42%Z).
Proof.
  apply (sent_ids_follow_clock Sample.me Sample.alice 42 43 42 50
           Sample.st0 Scenario.st_typed
           (c1 := Sample.chat1) (c2 := Sample.chat1));
    try reflexivity; discriminate.
Defined.



Example preview_no_messages :
  ChatInterfaceView.rowPreview Sample.chat2 = lit "No messages yet".
Proof. reflexivity. Qed.

(** ** The focused conversation stays in the list *)

Lemma handleSendMessage_keeps_selection
      (cu : ChatInterface.User.t) (d n : Z) (st : ChatInterface.State) :
  ChatInterfaceView.selection_in_list st ->
  ChatInterfaceView.selection_in_list
    (ChatInterface.handleSendMessage cu d n st).
Proof.
  intros Hin. unfold ChatInterface.handleSendMessage.
  destruct (negb (truthy (trim (ChatInterface.message st)))); [exact Hin|].
  destruct (ChatInterface.selectedChat st) as [selected|] eqn:S; [|exact Hin].
  intros c Hc. simpl in Hc. injection Hc as <-. simpl.
  apply in_map_iff. exists selected. rewrite eqb_refl.
  split; [reflexivity | apply Hin, S].
Qed.

Lemma step_keeps_selection
      (cu : ChatInterface.User.t) (lower : jsstring -> jsstring)
      (st : ChatInterface.State) (e : ChatInterfaceView.Event) :
  ChatInterfaceView.reloads_on_mobile e = false ->
  ChatInterfaceView.selection_in_list st ->
  ChatInterfaceView.selection_in_list (ChatInterfaceView.step cu lower st e).
Proof.
  intros He Hin.
  destruct e as [isMobile d1 d2 | v | v | isMobile i | d n | k d n | b | b | b];
    simpl; try exact Hin.
  - destruct isMobile; [discriminate|].
    intros c Hc. simpl in Hc. injection Hc as <-. simpl. left. reflexivity.
  - unfold ChatInterfaceView.clickRow.
    destruct (nth_error (ChatInterface.filteredChats cu lower st) i)
      as [chat|] eqn:N; [|exact Hin].
    apply nth_error_In in N. unfold ChatInterface.filteredChats in N.
    apply filter_In in N. destruct N as [N _].
    intros c Hc. unfold ChatInterfaceView.handleChatSelect in *.
    destruct isMobile; simpl in *; injection Hc as <-; exact N.
  - unfold ChatInterfaceView.clickSend.
    destruct (ChatInterfaceView.sendDisabled st); [exact Hin|].
    apply handleSendMessage_keeps_selection, Hin.
  - unfold ChatInterfaceView.onKeyPress.
    destruct (JS.eqb k (lit "Enter")); [|exact Hin].
    apply handleSendMessage_keeps_selection, Hin.
Qed.

(** X5. Whatever the user does (typing, searching, clicking a row of the
    filtered list, sending by button or key, opening and closing panels),
    and whenever the mount effect reloads the conversations in the desktop
    layout, the focused conversation, if any, is one of the conversations of
    the list.  A reload in the mobile layout is left out: it replaces the
    list and keeps the selection. *)
Theorem selection_stays_in_list :
  forall (currentUser : ChatInterface.User.t)
         (toLowerCase : jsstring -> jsstring)
         (events : list ChatInterfaceView.Event) (st : ChatInterface.State),
    ChatInterfaceView.selection_in_list st ->
    Forall (fun e => ChatInterfaceView.reloads_on_mobile e = false) events ->
    ChatInterfaceView.selection_in_list
      (ChatInterfaceView.run currentUser toLowerCase events st).
Proof.
  intros cu lower events. induction events as [|e events IH]; intros st Hin Hev.
  - exact Hin.
  - inversion Hev as [|? ? He Hrest]; subst. simpl. apply IH; [|exact Hrest].
    apply step_keeps_selection; assumption.
Qed.

Lemma selection_stays_in_list_witness :
  ChatInterfaceView.selection_in_list ChatInterfaceView.initial /\
  ChatInterfaceView.selection_in_list
    (ChatInterfaceView.run Sample.me toLowerCaseASCII
       [ChatInterfaceView.LoadChats false 5000000 5000000;
        ChatInterfaceView.TypeMessage (lit "hello");
        ChatInterfaceView.ClickSend 5000001 5000002;
        ChatInterfaceView.TypeSearch (lit "ali");
        ChatInterfaceView.ClickRow true 0;
        ChatInterfaceView.TypeMessage (lit "again");
        ChatInterfaceView.KeyPress (lit "Enter") 5000003 5000004]
       ChatInterfaceView.initial).
Proof.
  assert (H0 : ChatInterfaceView.selection_in_list ChatInterfaceView.initial)
    by (intros c Hc; discriminate).
  split; [exact H0|].
  apply (selection_stays_in_list Sample.me toLowerCaseASCII).
  - exact H0.
  - repeat constructor.
Defined.

Example selection_lost_on_mobile_reload :
  let st := ChatInterfaceView.run Sample.me toLowerCaseASCII
              [ChatInterfaceView.LoadChats false 5000000 5000000;
               ChatInterfaceView.TypeMessage (lit "hello");
               ChatInterfaceView.ClickSend 5000001 5000002;
               ChatInterfaceView.LoadChats true 5000003 5000003]
              ChatInterfaceView.initial in
  option_map (fun c => List.length (ChatInterface.Chat.messages c))
             (ChatInterface.selectedChat st) = Some 3 /\
  map (fun c => List.length (ChatInterface.Chat.messages c))
      (ChatInterface.chats st) = [2].
Proof. split; reflexivity. Qed.

(** ** Initials *)

Lemma split_segments_no_sep (sep : code_unit) (s seg : jsstring) :
  In seg (split sep s) -> ~ In sep seg.
Proof.
  revert seg. induction s as [|c r IH]; intros seg; simpl.
  - intros [<-|[]]. simpl. tauto.
  - destruct (N.eqb c sep) eqn:E.
    + intros [<-|H]; [simpl; tauto | apply IH, H].
    + apply N.eqb_neq in E. destruct (split sep r) as [|p ps].
      * intros [<-|[]]. simpl. intros [H|[]]. congruence.
      * intros [<-|H].
        -- simpl. intros [H|H]; [congruence|].
           apply (IH p); [left; reflexivity | exact H].
        -- apply IH. right. exact H.
Qed.

(** X6. The initials shown in an avatar contain no space, and they are
    empty exactly for a name that consists of spaces only (the empty name
    included); so a row shows its fallback letter only then, or when the
    conversation has no partner, and what it shows is never empty. *)
Theorem initials_blank_iff :
  forall (name : jsstring),
    (ChatInterfaceView.initials name = [] <->
     Forall (fun c => c = ChatInterfaceView.space) name) /\
    ~ In ChatInterfaceView.space (ChatInterfaceView.initials name) /\
    (forall (currentUser : ChatInterface.User.t) (chat : ChatInterface.Chat.t),
        ChatInterfaceView.rowFallback currentUser chat <> [] /\
        (ChatInterface.getChatPartner currentUser chat = None ->
         ChatInterfaceView.rowFallback currentUser chat = lit "G")).
Proof.
  intros name. split; [|split].
  - unfold ChatInterfaceView.initials.
    induction name as [|c r IH]; simpl.
    + split; [constructor | reflexivity].
    + destruct (N.eqb c ChatInterfaceView.space) eqn:E.
      * apply N.eqb_eq in E. subst c. simpl. rewrite IH. split.
        -- intros H. constructor; [reflexivity | exact H].
        -- intros H. inversion H; assumption.
      * apply N.eqb_neq in E.
        destruct (split ChatInterfaceView.space r) as [|p ps]; simpl;
          (split; [discriminate | intros H; inversion H; congruence]).
  - unfold ChatInterfaceView.initials. intros H.
    apply in_concat in H. destruct H as [l [Hl Hx]].
    apply in_map_iff in Hl. destruct Hl as [seg [<- Hseg]].
    apply split_segments_no_sep in Hseg.
    destruct seg as [|c seg]; simpl in Hx; [contradiction|].
    destruct Hx as [Hc|[]]. apply Hseg. left. exact Hc.
  - intros cu chat. unfold ChatInterfaceView.rowFallback. split.
    + destruct (ChatInterface.getChatPartner cu chat) as [p|]; simpl;
        [|discriminate].
      destruct (ChatInterfaceView.initials (ChatInterface.User.name p));
        simpl; discriminate.
    + intros ->. reflexivity.
Qed.

Lemma initials_blank_iff_witness :
  ChatInterfaceView.initials (lit "   ") = [] /\
  ChatInterfaceView.rowFallback Sample.me Sample.solo = lit "G".
Proof.
  split.
  - apply (proj1 (initials_blank_iff (lit "   "))). repeat constructor.
  - apply (proj2 (proj2 (proj2 (initials_blank_iff [])) Sample.me Sample.solo)).
    reflexivity.
Defined.

Example initials_ex :
  ChatInterfaceView.initials (lit "Alice Johnson") = lit "AJ" /\
  ChatInterfaceView.initials (lit " alice  b. johnson ") = lit "abj".
Proof. split; reflexivity. Qed.

(** ** Statistics and search after a send *)

(** X7. The statistics dialog never counts more online partners than
    conversations, and a passing send raises its total of messages by one
    while the number of conversations stays. *)
Theorem stats_after_send :
  forall (currentUser : ChatInterface.User.t) (dateNow newDate : Z)
         (st : ChatInterface.State),
    ChatInterfaceView.activeUsers (ChatInterfaceView.stats currentUser st) <=
    ChatInterfaceView.totalChats (ChatInterfaceView.stats currentUser st) /\
    (forall selected,
        ChatInterface.selectedChat st = Some selected ->
        trim (ChatInterface.message st) <> [] ->
        let st' := ChatInterface.handleSendMessage currentUser dateNow newDate st in
        ChatInterfaceView.totalMessages (ChatInterfaceView.stats currentUser st') =
          S (ChatInterfaceView.totalMessages (ChatInterfaceView.stats currentUser st)) /\
        ChatInterfaceView.totalChats (ChatInterfaceView.stats currentUser st') =
          ChatInterfaceView.totalChats (ChatInterfaceView.stats currentUser st)).
Proof.
  intros cu d n st. split.
  - simpl. apply filter_length_le.
  - intros selected S T. cbv zeta.
    rewrite (handleSendMessage_sends cu d n st S T). simpl. rewrite S.
    rewrite length_app, length_map. simpl. split; lia.
Qed.

Lemma stats_after_send_witness :
  ChatInterfaceView.totalMessages
    (ChatInterfaceView.stats Sample.me
       (ChatInterface.handleSendMessage Sample.me 42 43 Sample.st0)) = 2 /\
  ChatInterfaceView.totalChats
    (ChatInterfaceView.stats Sample.me
       (ChatInterface.handleSendMessage Sample.me 42 43 Sample.st0)) = 3.
Proof.
  apply (proj2 (stats_after_send Sample.me 42 43 Sample.st0) Sample.chat1);
    [reflexivity | discriminate].
Defined.

(** The search predicate reads only the participants and the name. *)
Lemma chatMatches_same_people
      (cu : ChatInterface.User.t) (lower : jsstring -> jsstring)
      (q : jsstring) (c1 c2 : ChatInterface.Chat.t) :
  ChatInterface.Chat.participants c1 = ChatInterface.Chat.participants c2 ->
  ChatInterface.Chat.name c1 = ChatInterface.Chat.name c2 ->
  ChatInterface.chatMatches cu lower q c1 =
  ChatInterface.chatMatches cu lower q c2.
Proof.
  intros Hp Hn. unfold ChatInterface.chatMatches, ChatInterface.getChatPartner.
  rewrite Hp, Hn. reflexivity.
Qed.

(** X8. A passing send does not change what the search shows: when the
    entries of the list that carry the focused id have the participants and
    name of the focused conversation, the filtered list after the send is
    the filtered list before, in the same order, with those entries
    replaced by the updated conversation. *)
Theorem search_unchanged_by_send :
  forall (currentUser : ChatInterface.User.t)
         (toLowerCase : jsstring -> jsstring) (dateNow newDate : Z)
         (st : ChatInterface.State) (selected : ChatInterface.Chat.t),
    ChatInterface.selectedChat st = Some selected ->
    trim (ChatInterface.message st) <> [] ->
    (forall chat,
        In chat (ChatInterface.chats st) ->
        ChatInterface.Chat.id chat = ChatInterface.Chat.id selected ->
        ChatInterface.Chat.participants chat =
          ChatInterface.Chat.participants selected /\
        ChatInterface.Chat.name chat = ChatInterface.Chat.name selected) ->
    let st' := ChatInterface.handleSendMessage currentUser dateNow newDate st in
    ChatInterface.filteredChats currentUser toLowerCase st' =
      map (fun chat =>
             if JS.eqb (ChatInterface.Chat.id chat)
                       (ChatInterface.Chat.id selected)
             then ChatInterface.Chat.with_messages selected
                    (ChatInterface.Chat.messages selected ++
                     [ChatInterface.sent_message currentUser dateNow newDate st])
             else chat)
          (ChatInterface.filteredChats currentUser toLowerCase st) /\
    map ChatInterface.Chat.id
        (ChatInterface.filteredChats currentUser toLowerCase st') =
    map ChatInterface.Chat.id
        (ChatInterface.filteredChats currentUser toLowerCase st).
Proof.
  intros cu lower d n st selected S T Hsame. cbv zeta.
  rewrite (handleSendMessage_sends cu d n st S T).
  unfold ChatInterface.filteredChats. simpl.
  rewrite filter_map_swap.
  assert (E : filter
                (fun a =>
                   toBoolean
                     (ChatInterface.chatMatches cu lower
                        (ChatInterface.searchQuery st)
                        (if JS.eqb (ChatInterface.Chat.id a)
                                   (ChatInterface.Chat.id selected)
                         then ChatInterface.Chat.with_messages selected
                                (ChatInterface.Chat.messages selected ++
                                 [ChatInterface.sent_message cu d n st])
                         else a)))
                (ChatInterface.chats st) =
              filter
                (fun chat =>
                   toBoolean
                     (ChatInterface.chatMatches cu lower
                        (ChatInterface.searchQuery st) chat))
                (ChatInterface.chats st)).
  { apply filter_ext_in. intros chat Hin.
    destruct (JS.eqb (ChatInterface.Chat.id chat)
                     (ChatInterface.Chat.id selected)) eqn:E; [|reflexivity].
    apply eqb_spec in E. destruct (Hsame chat Hin E) as [Hp Hn].
    f_equal. apply chatMatches_same_people; simpl; congruence. }
  rewrite E. split; [reflexivity|].
  rewrite map_map. apply map_ext_in. intros chat _.
  destruct (JS.eqb (ChatInterface.Chat.id chat)
                   (ChatInterface.Chat.id selected)) eqn:E'; [|reflexivity].
  simpl. symmetry. apply eqb_spec, E'.
Qed.

Lemma search_unchanged_by_send_witness :
  map ChatInterface.Chat.id
      (ChatInterface.filteredChats Sample.me toLowerCaseASCII
         (ChatInterface.handleSendMessage Sample.me 42 43 Scenario.st_typed)) =
  map ChatInterface.Chat.id
      (ChatInterface.filteredChats Sample.me toLowerCaseASCII Scenario.st_typed).
Proof.
  apply (search_unchanged_by_send Sample.me toLowerCaseASCII 42 43
           Scenario.st_typed (selected := Sample.chat1)).
  - reflexivity.
  - discriminate.
  - intros chat [<-|[<-|[<-|[]]]] H; try discriminate. split; reflexivity.
Defined.

Lemma filter_subseq_impl {A} (p1 p2 : A -> bool) (l : list A) :
  (forall x, In x l -> p2 x = true -> p1 x = true) ->
  subseq (filter p2 l) (filter p1 l).
Proof.
  induction l as [|x l IH]; intros H; simpl; [constructor|].
  assert (IH' : subseq (filter p2 l) (filter p1 l))
    by (apply IH; intros y Hy; apply H; right; exact Hy).
  destruct (p2 x) eqn:E2.
  - rewrite (H x (or_introl eq_refl) E2). apply subseq_keep. exact IH'.
  - destruct (p1 x); [apply subseq_skip|]; exact IH'.
Qed.

(** X9. Refining the query never adds results: when the lower-cased new
    query contains the lower-cased old one, the new filtered list is the old
    filtered list with some conversations left out, the others in their
    order. *)
Theorem search_refinement :
  forall (currentUser : ChatInterface.User.t)
         (toLowerCase : jsstring -> jsstring)
         (st : ChatInterface.State) (query : jsstring),
    (exists pre post,
        toLowerCase query =
        pre ++ toLowerCase (ChatInterface.searchQuery st) ++ post) ->
    subseq
      (ChatInterface.filteredChats currentUser toLowerCase
         (ChatInterfaceView.setSearchQuery query st))
      (ChatInterface.filteredChats currentUser toLowerCase st).
Proof.
  intros cu lower st query [pre [post Hq]].
  unfold ChatInterface.filteredChats. simpl.
  apply filter_subseq_impl. intros chat _ H.
  apply chatMatches_true_iff in H. apply chatMatches_true_iff.
  destruct H as [[p [a [b [Hp E]]]] | [n [a [b [Hn E]]]]]; [left | right].
  - exists p, (a ++ pre), (post ++ b). split; [exact Hp|].
    rewrite E, Hq. rewrite <- !app_assoc. reflexivity.
  - exists n, (a ++ pre), (post ++ b). split; [exact Hn|].
    rewrite E, Hq. rewrite <- !app_assoc. reflexivity.
Qed.

Lemma search_refinement_witness :
  subseq
    (ChatInterface.filteredChats Sample.me toLowerCaseASCII
       (ChatInterfaceView.setSearchQuery (lit "Alice J") Scenario.st_typed))
    (ChatInterface.filteredChats Sample.me toLowerCaseASCII Scenario.st_typed).
Proof.
  apply (search_refinement Sample.me toLowerCaseASCII Scenario.st_typed
           (lit "Alice J")).
  exists [], (lit "ce j"). reflexivity.
Defined.

(* ===================================================================== *)
(** * Further properties of the session *)
(* ===================================================================== *)

(** X10. [handleRegister] and [handleOTPVerification] always end with
    [isLoading] false, however the call settles and whatever [isLoading] was
    before: the [finally] block runs on every path.  They return normally
    when the call is fulfilled (with or without an error in the response)
    or rejected with an object; when it is rejected with null or undefined,
    reading [error.message] in the [catch] block throws a [TypeError], which
    leaves the handler after [finally] has run. *)
Theorem loading_flag_released :
  forall (origin : jsstring) (data : ChatApp.RegisterData.t)
         (code : jsstring) (answer : Effect.settled Supabase.Response)
         (st : ChatApp.Store),
    let outcome :=
      match answer with
      | Effect.Rejected (Effect.NotAnObject n) =>
          Effect.Throw (Effect.Object (Effect.TypeError n))
      | _ => Effect.Normal tt
      end in
    snd (ChatApp.handleRegister origin data answer st) = outcome /\
    ChatApp.isLoading
      (Effect.exec (ChatApp.handleRegister origin data answer) st) = false /\
    snd (ChatApp.handleOTPVerification code answer st) = outcome /\
    ChatApp.isLoading
      (Effect.exec (ChatApp.handleOTPVerification code answer) st) = false.
Proof.
  intros origin data code answer st.
  destruct answer as [[e|]|[e|n]]; repeat split.
Qed.

Example loading_flag_released_null :
  let run := ChatApp.handleRegister (lit "https://chat.example")
               Sample.jane_data
               (Effect.Rejected (Effect.NotAnObject Effect.null))
               Sample.app_register in
  snd run = Effect.Throw (Effect.Object (Effect.TypeError Effect.null)) /\
  ChatApp.isLoading (fst run) = false /\
  ChatApp.toasts (fst run) = [] /\
  ChatApp.authMode (fst run) = ChatApp.register.
Proof. repeat split. Qed.

(** X11. [handleOTPVerification] sends one [verifyOtp] request, for the
    pending email and the given code, and never changes the mode, the
    pending email, the profile, the user or the session: after a failure
    the form is still there with the same pending email.  It raises
    "Email verified!" when the service accepts, and "Verification failed"
    with the error's message (or the stock text when it has none) when the
    response carries an error or the call is rejected with an object.  When
    the call is rejected with null or undefined it raises no toast: the
    [catch] block throws on reading [error.message]. *)
Theorem verification_keeps_form :
  forall (code : jsstring) (answer : Effect.settled Supabase.Response)
         (st : ChatApp.Store),
    let st' := Effect.exec (ChatApp.handleOTPVerification code answer) st in
    ChatApp.authMode st' = ChatApp.authMode st /\
    ChatApp.pendingEmail st' = ChatApp.pendingEmail st /\
    ChatApp.currentUser st' = ChatApp.currentUser st /\
    ChatApp.user st' = ChatApp.user st /\
    ChatApp.session st' = ChatApp.session st /\
    ChatApp.requests st' =
      ChatApp.requests st ++
      [Supabase.VerifyOtp (ChatApp.pendingEmail st) code] /\
    ChatApp.toasts st' =
      ChatApp.toasts st ++
      match answer with
      | Effect.Fulfilled None =>
          [Toast.mk (lit "Email verified!")
                    (lit "Welcome to ChatApp! You can now start chatting.")
                    Toast.default]
      | Effect.Fulfilled (Some e) | Effect.Rejected (Effect.Object e) =>
          [Toast.mk (lit "Verification failed")
                    (or_else (Effect.message e)
                             (lit "Invalid OTP. Please check your email for the verification code."))
                    Toast.destructive]
      | Effect.Rejected (Effect.NotAnObject _) => []
      end.
Proof.
  intros code answer st. destruct answer as [[e|]|[e|n]]; cbv zeta; simpl;
    rewrite ?app_nil_r; repeat split.
Qed.



Lemma step_keeps_user_mirror (st : ChatApp.Store) (e : ChatAppSession.Event) :
  ChatAppSession.user_mirrors_session st ->
  ChatAppSession.user_mirrors_session (ChatAppSession.step st e).
Proof.
  unfold ChatAppSession.user_mirrors_session. intros H.
  destruct e as [s | s d d' | d d' uid | origin data answer | code answer
                 | answer | | ]; simpl.
  - destruct s; reflexivity.
  - destruct s; reflexivity.
  - exact H.
  - destruct answer as [[e|]|[e|n]]; exact H.
  - destruct answer as [[e|]|[e|n]]; exact H.
  - destruct answer as [[e|]|[e|n]]; simpl; try exact H. reflexivity.
  - exact H.
  - exact H.
Qed.

(** X13. [user] always is the user of [session] (null when there is no
    session): the first render has it so, and no service event, timer,
    form handler or mode switch breaks it, in whatever order they come. *)
Theorem user_always_mirrors_session :
  forall (events : list ChatAppSession.Event),
    ChatAppSession.user_mirrors_session
      (ChatAppSession.run events ChatAppSession.initial) /\
    (forall st,
        ChatAppSession.user_mirrors_session st ->
        ChatAppSession.user_mirrors_session (ChatAppSession.run events st)).
Proof.
  intros events.
  assert (G : forall st,
             ChatAppSession.user_mirrors_session st ->
             ChatAppSession.user_mirrors_session (ChatAppSession.run events st)).
  { induction events as [|e events IH]; intros st H; simpl; [exact H|].
    apply IH, step_keeps_user_mirror, H. }
  split; [|exact G]. apply G. reflexivity.
Qed.

Lemma user_always_mirrors_session_witness :
  ChatAppSession.user_mirrors_session
    (ChatAppSession.run
       [ChatAppSession.AuthStateChange (Some Scenario.jane_session);
        ChatAppSession.Timer 5%Z 6%Z (lit "u-1");
        ChatAppSession.Logout (Effect.Rejected (Effect.Object Sample.network_down));
        ChatAppSession.Logout (Effect.Fulfilled None)]
       Sample.app_register).
Proof.
  apply (proj2 (user_always_mirrors_session
                  [ChatAppSession.AuthStateChange (Some Scenario.jane_session);
                   ChatAppSession.Timer 5%Z 6%Z (lit "u-1");
                   ChatAppSession.Logout (Effect.Rejected (Effect.Object Sample.network_down));
                   ChatAppSession.Logout (Effect.Fulfilled None)])).
  reflexivity.
Defined.

(** X14. The profile fetch the mount effect triggers runs with the [user]
    of the first render, which is null.  So after a sign-in event and its
    timer, or after [getSession] found a session, the chat interface is on
    screen with a profile that has the session user's id, the name "User",
    an empty email and the avatar of the seed "undefined", whatever the
    email of the session's user is.  Between the event and its timer
    nothing is on screen if no profile was set before. *)
Theorem profile_after_sign_in :
  forall (s : Supabase.Session.t) (newDate newDate' : Date)
         (st : ChatApp.Store),
    let uid := Supabase.User.id (Supabase.Session.user s) in
    let profile :=
      ChatApp.UserProfile.mk uid (lit "User") []
        (Some (lit "https://api.dicebear.com/7.x/avataaars/svg?seed=undefined"))
        online None (Some (lit "Hello! I'm using ChatApp")) (Some [])
        (Some newDate) in
    let st1 := Effect.exec (ChatAppSession.onAuthStateChange (Some s)) st in
    let st2 := Effect.exec (ChatAppSession.timer newDate newDate' uid) st1 in
    ChatAppSession.render st2 = ChatAppSession.ShowChatInterface profile /\
    (ChatApp.currentUser st = None ->
     ChatAppSession.render st1 = ChatAppSession.ShowNothing) /\
    ChatAppSession.render
      (Effect.exec (ChatAppSession.getSession_then (Some s) newDate newDate') st)
    = ChatAppSession.ShowChatInterface profile.
Proof.
  intros s d d' st. cbv zeta. split; [reflexivity|]. split; [|reflexivity].
  intros H. unfold ChatAppSession.render. simpl. rewrite H. reflexivity.
Qed.

Lemma profile_after_sign_in_witness :
  ChatAppSession.render
    (Effect.exec (ChatAppSession.onAuthStateChange (Some Scenario.jane_session))
                 ChatAppSession.initial)
  = ChatAppSession.ShowNothing.
Proof.
  apply (proj1 (proj2 (profile_after_sign_in Scenario.jane_session 5%Z 6%Z
                         ChatAppSession.initial))).
  reflexivity.
Defined.

(* ===================================================================== *)
(** * Further properties of the forms *)
(* ===================================================================== *)

(** X15. The registration form as [ChatApp] renders it: data the schema
    rejects changes nothing and sends nothing.  Data it accepts reaches
    [ChatApp]'s [handleRegister] without the confirmation field, so the one
    sign-up request carries a password of at least six code units that
    equals its confirmation and a full name of at least two.  Whenever that
    handler returns, which it does also after a sign-up that failed with an
    error value, the form raises its own "Account created!" toast; when it
    throws, which it does for a call rejected with null or undefined, the
    form raises "Registration failed". *)
Theorem register_form_submit :
  forall (isEmail : jsstring -> bool) (origin : jsstring)
         (answer : Effect.settled Supabase.Response)
         (data : RegisterForm.RegisterFormData.t)
         (s : RegisterForm.Store ChatApp.Store),
    let s' := Effect.exec (RegisterForm.rendered_submit isEmail origin answer data) s in
    let fullName := RegisterForm.RegisterFormData.fullName data in
    let email := RegisterForm.RegisterFormData.email data in
    let password := RegisterForm.RegisterFormData.password data in
    (RegisterForm.registerSchema isEmail data = false -> s' = s) /\
    (RegisterForm.registerSchema isEmail data = true ->
     RegisterForm.parent s' =
       Effect.exec
         (ChatApp.handleRegister origin
            (ChatApp.RegisterData.mk fullName email password) answer)
         (RegisterForm.parent s) /\
     ChatApp.requests (RegisterForm.parent s') =
       ChatApp.requests (RegisterForm.parent s) ++
       [Supabase.SignUp email password (origin ++ lit "/") fullName] /\
     6 <= JS.length password /\
     2 <= JS.length fullName /\
     password = RegisterForm.RegisterFormData.confirmPassword data /\
     RegisterForm.toasts s' =
       RegisterForm.toasts s ++
       [match answer with
        | Effect.Rejected (Effect.NotAnObject _) =>
            Toast.mk (lit "Registration failed")
                     (lit "Please try again later.")
                     Toast.destructive
        | _ =>
            Toast.mk (lit "Account created!")
                     (lit "Please check your email for verification.")
                     Toast.default
        end] /\
     RegisterForm.showPassword s' = RegisterForm.showPassword s /\
     RegisterForm.showConfirmPassword s' = RegisterForm.showConfirmPassword s).
Proof.
  intros isEmail origin answer data s. cbv zeta.
  unfold RegisterForm.rendered_submit, RegisterForm.submit, Effect.exec.
  split.
  - intros ->. destruct s; reflexivity.
  - intros H. rewrite H.
    unfold RegisterForm.registerSchema in H.
    apply andb_true_iff in H. destruct H as [H Heq].
    apply andb_true_iff in H. destruct H as [H Hpw].
    apply andb_true_iff in H. destruct H as [Hname _].
    apply Nat.leb_le in Hname, Hpw. apply eqb_spec in Heq.
    destruct answer as [[e|]|[e|n]]; repeat split; assumption.
Qed.

Lemma register_form_submit_witness :
  (Effect.exec
     (RegisterForm.rendered_submit Scenario.has_at (lit "https://chat.example")
        (Effect.Fulfilled None)
        (RegisterForm.RegisterFormData.mk (lit "Jane Doe") (lit "jane@x.com")
           (lit "secret1") (lit "secret2")))
     Scenario.register_form = Scenario.register_form)
  /\
  (ChatApp.requests
     (RegisterForm.parent
        (Effect.exec
           (RegisterForm.rendered_submit Scenario.has_at
              (lit "https://chat.example")
              (Effect.Fulfilled (Some Sample.network_down))
              Scenario.jane_form)
           Scenario.register_form)) =
   [Supabase.SignUp (lit "jane@x.com") (lit "secret1")
                    (lit "https://chat.example/") (lit "Jane Doe")]).
Proof.
  split.
  - apply (proj1 (register_form_submit Scenario.has_at
                    (lit "https://chat.example") (Effect.Fulfilled None)
                    (RegisterForm.RegisterFormData.mk (lit "Jane Doe")
                       (lit "jane@x.com") (lit "secret1") (lit "secret2"))
                    Scenario.register_form)).
    reflexivity.
  - pose proof (proj2 (register_form_submit Scenario.has_at
                         (lit "https://chat.example")
                         (Effect.Fulfilled (Some Sample.network_down))
                         Scenario.jane_form Scenario.register_form))
      as H.
    cbv zeta in H. destruct (H eq_refl) as [_ [Hreq _]]. exact Hreq.
Defined.

Example register_form_toast_after_failure :
  let s' := Effect.exec
              (RegisterForm.rendered_submit Scenario.has_at
                 (lit "https://chat.example")
                 (Effect.Fulfilled (Some Sample.network_down))
                 Scenario.jane_form)
              Scenario.register_form in
  map Toast.title (RegisterForm.toasts s') = [lit "Account created!"] /\
  map Toast.title (ChatApp.toasts (RegisterForm.parent s')) =
    [lit "Registration failed"] /\
  ChatApp.authMode (RegisterForm.parent s') = ChatApp.register.
Proof. repeat split. Qed.

Example register_form_toast_after_null_rejection :
  let s' := Effect.exec
              (RegisterForm.rendered_submit Scenario.has_at
                 (lit "https://chat.example")
                 (Effect.Rejected (Effect.NotAnObject Effect.undefined))
                 Scenario.jane_form)
              Scenario.register_form in
  map Toast.title (RegisterForm.toasts s') = [lit "Registration failed"] /\
  ChatApp.toasts (RegisterForm.parent s') = [] /\
  ChatApp.isLoading (RegisterForm.parent s') = false /\
  ChatApp.authMode (RegisterForm.parent s') = ChatApp.register.
Proof. repeat split. Qed.

(** X16. Resending the code: whatever [onResendOTP] does, the form's
    handler does not throw, ends with [isResending] false, keeps the entered
    code, runs [onResendOTP] once, and raises one toast: "OTP resent" when
    [onResendOTP] completed, "Failed to resend OTP" when it threw. *)
Theorem resend_releases_flag :
  forall (P : Type) (onResendOTP : Effect.M P unit) (s : OTPForm.Store P),
    let s' := Effect.exec (OTPFormResend.handleResendOTP onResendOTP) s in
    snd (OTPFormResend.handleResendOTP onResendOTP s) = Effect.Normal tt /\
    OTPForm.isResending s' = false /\
    OTPForm.otp s' = OTPForm.otp s /\
    OTPForm.parent s' = Effect.exec onResendOTP (OTPForm.parent s) /\
    OTPForm.toasts s' =
      OTPForm.toasts s ++
      [match snd (onResendOTP (OTPForm.parent s)) with
       | Effect.Normal _ =>
           Toast.mk (lit "OTP resent")
                    (lit "A new OTP has been sent to your email.")
                    Toast.default
       | Effect.Throw _ =>
           Toast.mk (lit "Failed to resend OTP")
                    (lit "Please try again later.")
                    Toast.destructive
       end].
Proof.
  intros P onResendOTP s. cbv zeta.
  unfold OTPFormResend.handleResendOTP, Effect.exec, Effect.bind,
    Effect.try_finally, Effect.try_catch, OTPForm.in_parent,
    OTPFormResend.setIsResending, OTPForm.toast, Effect.modify. simpl.
  destruct (onResendOTP (OTPForm.parent s)) as [p' [[]|e]]; simpl;
    repeat split.
Qed.

Example resend_failure_run :
  let s' := Effect.exec (OTPFormResend.handleResendOTP Scenario.resend_fails)
                        Sample.form_full in
  map Toast.title (OTPForm.toasts s') = [lit "Failed to resend OTP"] /\
  OTPForm.otp s' = lit "123456" /\
  OTPForm.isResending s' = false.
Proof. repeat split. Qed.

(* ===================================================================== *)
(** * Mode and session; what is sent *)
(* ===================================================================== *)

Lemma step_keeps_chat_needs_session
      (st : ChatApp.Store) (e : ChatAppSession.Event) :
  ChatAppSession.late_without_session st e = false ->
  ChatAppSession.chat_needs_session st ->
  ChatAppSession.chat_needs_session (ChatAppSession.step st e).
Proof.
  unfold ChatAppSession.chat_needs_session. intros Hlate H.
  destruct e as [s | s d d' | d d' uid | origin data answer | code answer
                 | answer | | ]; simpl.
  - destruct s; simpl; [discriminate | discriminate].
  - destruct s; simpl; [discriminate|].
    unfold ChatAppSession.late_without_session in Hlate.
    intros Hm. rewrite Hm in Hlate. discriminate.
  - exact H.
  - destruct answer as [[e|]|[e|n]]; simpl; try exact H. discriminate.
  - destruct answer as [[e|]|[e|n]]; exact H.
  - destruct answer as [[e|]|[e|n]]; simpl; try exact H. discriminate.
  - discriminate.
  - discriminate.
Qed.

(** X17. The mode is [chat] only while there is a session: this holds in
    the first render and after every sequence of service events, timers,
    form handlers and mode switches, provided [getSession] does not report
    "no session" at a moment when the mode is already [chat]. *)
Theorem chat_mode_has_session :
  forall (events : list ChatAppSession.Event) (st : ChatApp.Store),
    ChatAppSession.chat_needs_session st ->
    ChatAppSession.no_late_report events st ->
    ChatAppSession.chat_needs_session (ChatAppSession.run events st).
Proof.
  intros events. induction events as [|e events IH]; intros st H Hev.
  - exact H.
  - destruct Hev as [He Hrest]. simpl. apply IH; [|exact Hrest].
    apply step_keeps_chat_needs_session; assumption.
Qed.

Lemma chat_mode_has_session_witness :
  ChatAppSession.chat_needs_session
    (ChatAppSession.run
       [ChatAppSession.GetSessionThen None 1%Z 1%Z;
        ChatAppSession.SwitchToRegister;
        ChatAppSession.Register (lit "https://chat.example") Sample.jane_data
                                (Effect.Fulfilled None);
        ChatAppSession.VerifyOTP (lit "123456") (Effect.Fulfilled None);
        ChatAppSession.AuthStateChange (Some Scenario.jane_session);
        ChatAppSession.Timer 5%Z 6%Z (lit "u-1");
        ChatAppSession.Logout (Effect.Rejected (Effect.Object Sample.network_down));
        ChatAppSession.AuthStateChange None;
        ChatAppSession.Timer 7%Z 8%Z (lit "u-1")]
       ChatAppSession.initial).
Proof.
  apply chat_mode_has_session.
  - intros H. discriminate.
  - simpl. repeat split.
Defined.

Example sign_up_flow_modes :
  map (fun events =>
         ChatApp.authMode (ChatAppSession.run events ChatAppSession.initial))
      [ [ChatAppSession.SwitchToRegister];
        [ChatAppSession.SwitchToRegister;
         ChatAppSession.Register (lit "o") Sample.jane_data (Effect.Fulfilled None)];
        [ChatAppSession.SwitchToRegister;
         ChatAppSession.Register (lit "o") Sample.jane_data (Effect.Fulfilled None);
         ChatAppSession.VerifyOTP (lit "000000")
           (Effect.Fulfilled (Some Sample.network_down))];
        [ChatAppSession.SwitchToRegister;
         ChatAppSession.Register (lit "o") Sample.jane_data (Effect.Fulfilled None);
         ChatAppSession.VerifyOTP (lit "123456") (Effect.Fulfilled None);
         ChatAppSession.AuthStateChange (Some Scenario.jane_session)] ] =
  [ChatApp.register; ChatApp.otp; ChatApp.otp; ChatApp.chat].
Proof. reflexivity. Qed.

(** X18. A profile fetch that fires late, when the mode is no longer
    [chat], changes nothing on screen, and it never changes the mode, the
    user, the session, the pending email or the loading flag. *)
Theorem late_timer_is_harmless :
  forall (newDate newDate' : Date) (userId : jsstring) (st : ChatApp.Store),
    let st' := Effect.exec (ChatAppSession.timer newDate newDate' userId) st in
    ChatApp.authMode st' = ChatApp.authMode st /\
    ChatApp.user st' = ChatApp.user st /\
    ChatApp.session st' = ChatApp.session st /\
    ChatApp.pendingEmail st' = ChatApp.pendingEmail st /\
    ChatApp.isLoading st' = ChatApp.isLoading st /\
    (ChatApp.authMode st <> ChatApp.chat ->
     ChatAppSession.render st' = ChatAppSession.render st).
Proof.
  intros d d' uid st. cbv zeta. repeat split.
  intros H. unfold ChatAppSession.render. simpl.
  destruct (ChatApp.authMode st); try reflexivity. contradiction.
Qed.

Lemma late_timer_is_harmless_witness :
  ChatAppSession.render
    (Effect.exec (ChatAppSession.timer 5%Z 6%Z (lit "u-1")) Sample.app_otp) =
  ChatAppSession.render Sample.app_otp.
Proof.
  pose proof (late_timer_is_harmless 5%Z 6%Z (lit "u-1") Sample.app_otp)
    as [_ [_ [_ [_ [_ H]]]]].
  apply H. discriminate.
Defined.

(** X19. Clicking a row and then sending appends the message to the
    conversation of that row: the focused conversation afterwards is the
    clicked one with the sent message at the end of its messages. *)
Theorem click_then_send :
  forall (currentUser : ChatInterface.User.t)
         (toLowerCase : jsstring -> jsstring)
         (isMobile : bool) (i : nat) (dateNow newDate : Z)
         (st : ChatInterface.State) (chat : ChatInterface.Chat.t),
    nth_error (ChatInterface.filteredChats currentUser toLowerCase st) i
      = Some chat ->
    trim (ChatInterface.message st) <> [] ->
    let st' :=
      ChatInterfaceView.clickSend currentUser dateNow newDate
        (ChatInterfaceView.clickRow currentUser toLowerCase isMobile i st) in
    ChatInterface.selectedChat st' =
      Some (ChatInterface.Chat.with_messages chat
              (ChatInterface.Chat.messages chat ++
               [ChatInterface.sent_message currentUser dateNow newDate st])) /\
    ChatInterface.message st' = [] /\
    (isMobile = true -> ChatInterface.sidebarOpen st' = false).
Proof.
  intros cu lower isMobile i d n st chat Hi T. cbv zeta.
  unfold ChatInterfaceView.clickRow. rewrite Hi.
  assert (E : ChatInterfaceView.clickSend cu d n
                (ChatInterfaceView.handleChatSelect isMobile chat st) =
              ChatInterface.handleSendMessage cu d n
                (ChatInterfaceView.handleChatSelect isMobile chat st)).
  { unfold ChatInterfaceView.clickSend, ChatInterfaceView.sendDisabled,
      ChatInterface.handleSendMessage.
    destruct (negb (truthy (trim (ChatInterface.message
                (ChatInterfaceView.handleChatSelect isMobile chat st)))));
      reflexivity. }
  rewrite E.
  rewrite (handleSendMessage_sends cu d n
             (ChatInterfaceView.handleChatSelect isMobile chat st)
             (selected := chat)).
  - simpl. unfold ChatInterface.sent_message.
    destruct isMobile; simpl; repeat split; discriminate.
  - destruct isMobile; reflexivity.
  - destruct isMobile; exact T.
Qed.

Lemma click_then_send_witness :
  let st' :=
    ChatInterfaceView.clickSend Sample.me 42 43
      (ChatInterfaceView.clickRow Sample.me toLowerCaseASCII true 1
         Scenario.st_typed) in
  ChatInterface.selectedChat st' =
    Some (ChatInterface.Chat.with_messages Sample.group
            (ChatInterface.Chat.messages Sample.group ++
             [ChatInterface.sent_message Sample.me 42 43 Scenario.st_typed])) /\
  ChatInterface.message st' = [] /\
  (true = true -> ChatInterface.sidebarOpen st' = false).
Proof.
  apply (click_then_send Sample.me toLowerCaseASCII true 1 42 43
           Scenario.st_typed (chat := Sample.group));
    [reflexivity | discriminate].
Defined.

Lemma trimStart_decomp (s : jsstring) :
  exists w, s = w ++ trimStart s /\ forallb isWhiteSpace w = true.
Proof.
  induction s as [|c r [w [E Hw]]]; simpl.
  - exists []. split; reflexivity.
  - destruct (isWhiteSpace c) eqn:C.
    + exists (c :: w). simpl. rewrite C, Hw. split; [congruence | reflexivity].
    + exists []. split; reflexivity.
Qed.

Lemma trimEnd_decomp (s : jsstring) :
  exists w, s = trimEnd s ++ w /\ forallb isWhiteSpace w = true.
Proof.
  unfold trimEnd. destruct (trimStart_decomp (rev s)) as [w [E Hw]].
  exists (rev w). split.
  - rewrite <- rev_app_distr, <- E, rev_involutive. reflexivity.
  - rewrite forallb_rev. exact Hw.
Qed.

(** [trim] strips white space from both ends, and only that: the input is
    the result with white space around it, and a non-empty result begins
    and ends with a code unit that is not white space. *)
Lemma trim_spec (s : jsstring) :
  (exists w1 w2, s = w1 ++ trim s ++ w2 /\
                 forallb isWhiteSpace w1 = true /\
                 forallb isWhiteSpace w2 = true) /\
  (trim s <> [] ->
   (exists c r, trim s = c :: r /\ isWhiteSpace c = false) /\
   (exists r c, trim s = r ++ [c] /\ isWhiteSpace c = false)).
Proof.
  unfold trim. split.
  - destruct (trimStart_decomp s) as [w1 [E1 H1]].
    destruct (trimEnd_decomp (trimStart s)) as [w2 [E2 H2]].
    exists w1, w2. split; [|split; assumption].
    rewrite <- E2. exact E1.
  - intros Hne. split.
    + destruct (trimEnd_decomp (trimStart s)) as [w2 [E2 _]].
      pose proof (trimStart_head s) as Hh.
      destruct (trimEnd (trimStart s)) as [|c r]; [contradiction|].
      exists c, r. split; [reflexivity|].
      rewrite E2 in Hh. exact Hh.
    + unfold trimEnd in *.
      pose proof (trimStart_head (rev (trimStart s))) as Hh.
      destruct (trimStart (rev (trimStart s))) as [|c r]; [contradiction|].
      exists (rev r), c. split; [reflexivity | exact Hh].
Qed.

(** X20. What a passing send appends is the draft without the white space
    at its two ends: the content is not empty, begins and ends with a code
    unit that is not white space, and the draft is that content with white
    space before and after it. *)
Theorem sent_content_is_trimmed :
  forall (currentUser : ChatInterface.User.t) (dateNow newDate : Z)
         (st : ChatInterface.State) (selected : ChatInterface.Chat.t),
    ChatInterface.selectedChat st = Some selected ->
    trim (ChatInterface.message st) <> [] ->
    exists focused m,
      ChatInterface.selectedChat
        (ChatInterface.handleSendMessage currentUser dateNow newDate st)
        = Some focused /\
      ChatInterfaceView.lastMessage focused = Some m /\
      (exists w1 w2,
          ChatInterface.message st =
            w1 ++ ChatInterface.Message.content m ++ w2 /\
          forallb isWhiteSpace w1 = true /\
          forallb isWhiteSpace w2 = true) /\
      (exists c r, ChatInterface.Message.content m = c :: r /\
                   isWhiteSpace c = false) /\
      (exists r c, ChatInterface.Message.content m = r ++ [c] /\
                   isWhiteSpace c = false).
Proof.
  intros cu d n st selected S T.
  rewrite (handleSendMessage_sends cu d n st S T). simpl.
  do 2 eexists. split; [reflexivity|]. split; [apply lastMessage_snoc|].
  simpl. destruct (trim_spec (ChatInterface.message st)) as [Hd Hends].
  destruct (Hends T) as [Hh Hl]. split; [exact Hd|]. split; assumption.
Qed.

Lemma sent_content_is_trimmed_witness :
  exists focused m,
    ChatInterface.selectedChat
      (ChatInterface.handleSendMessage Sample.me 42 43 Sample.st0)
      = Some focused /\
    ChatInterfaceView.lastMessage focused = Some m /\
    (exists w1 w2,
        ChatInterface.message Sample.st0 =
          w1 ++ ChatInterface.Message.content m ++ w2 /\
        forallb isWhiteSpace w1 = true /\
        forallb isWhiteSpace w2 = true) /\
    (exists c r, ChatInterface.Message.content m = c :: r /\
                 isWhiteSpace c = false) /\
    (exists r c, ChatInterface.Message.content m = r ++ [c] /\
                 isWhiteSpace c = false).
Proof.
  apply (sent_content_is_trimmed Sample.me 42 43 Sample.st0
           (selected := Sample.chat1)); [reflexivity | discriminate].
Defined.
